(** * Loan.ly call-flow server (src/app.py): a shallow embedding in Rocq.

    Strings are byte strings (Rocq [string] is a list of 8-bit [ascii]),
    which is exactly what Python's [quote] works on after UTF-8 encoding.
    Character classes ([isdigit], [lower], [strip]) are taken on their ASCII
    part. *)

From Stdlib Require Import String Ascii List ZArith NArith Bool Lia.
Import ListNotations.
Open Scope string_scope.
Open Scope Z_scope.

(** ** Python string helpers *)

Module Py.

Definition ascii_eqb (a b : ascii) : bool := Ascii.eqb a b.

(** [c.isdigit()] on ASCII. *)
Definition isdigit (c : ascii) : bool :=
  let n := nat_of_ascii c in (48 <=? n)%nat && (n <=? 57)%nat.

(** [str.isspace] on ASCII: \t \n \x0b \x0c \r, \x1c-\x1f and space. *)
Definition isspace (c : ascii) : bool :=
  let n := nat_of_ascii c in
  ((9 <=? n)%nat && (n <=? 13)%nat) || ((28 <=? n)%nat && (n <=? 32)%nat).

(** [str.lower] on ASCII. *)
Definition lower_char (c : ascii) : ascii :=
  let n := nat_of_ascii c in
  if (65 <=? n)%nat && (n <=? 90)%nat then ascii_of_nat (n + 32) else c.

Fixpoint lower (s : string) : string :=
  match s with
  | EmptyString => EmptyString
  | String c s' => String (lower_char c) (lower s')
  end.

(** [s.startswith(p)]. *)
Definition startswith (s p : string) : bool := String.prefix p s.

(** [sub in s]. *)
Fixpoint contains (sub s : string) : bool :=
  String.prefix sub s ||
  match s with
  | EmptyString => false
  | String _ s' => contains sub s'
  end.

(** [''.join(ch for ch in s if keep(ch))]. *)
Fixpoint filter_chars (keep : ascii -> bool) (s : string) : string :=
  match s with
  | EmptyString => EmptyString
  | String c s' => if keep c then String c (filter_chars keep s')
                   else filter_chars keep s'
  end.

Fixpoint lstrip (s : string) : string :=
  match s with
  | String c s' => if isspace c then lstrip s' else s
  | EmptyString => EmptyString
  end.

Definition rev_str (s : string) : string :=
  string_of_list_ascii (List.rev (list_ascii_of_string s)).

(** [s.strip()]. *)
Definition strip (s : string) : string := rev_str (lstrip (rev_str (lstrip s))).

(** [s.split(sep)] for a one-character separator. *)
Fixpoint split_on (sep : ascii) (s : string) : list string :=
  match s with
  | EmptyString => [EmptyString]
  | String c s' =>
      match split_on sep s' with
      | [] => [] (* not reached *)
      | w :: ws => if ascii_eqb c sep then EmptyString :: w :: ws
                   else String c w :: ws
      end
  end.

(** Truthiness of an optional string, as in [a or b]. *)
Definition truthy (o : option string) : bool :=
  match o with Some s => negb (String.eqb s "") | None => false end.

Definition or_else (a b : option string) : option string :=
  if truthy a then a else b.

(** f-string rendering of an optional string ([None] renders as "None"). *)
Definition fstr (o : option string) : string :=
  match o with Some s => s | None => "None" end.

(** [str(n)] for an integer. *)
Definition digit_char (d : N) : ascii := ascii_of_N (48 + d).

Fixpoint n_digits (fuel : nat) (n : N) (acc : string) : string :=
  match fuel with
  | O => acc
  | S f =>
      let acc' := String (digit_char (N.modulo n 10)) acc in
      if (n <? 10)%N then acc' else n_digits f (N.div n 10) acc'
  end.

Definition str_of_N (n : N) : string :=
  n_digits (S (N.size_nat n)) n EmptyString.

Definition str_of_Z (z : Z) : string :=
  match z with
  | Zneg _ => "-" ++ str_of_N (Z.abs_N z)
  | _ => str_of_N (Z.to_N z)
  end.

(** [int(s)] for a string: surrounding whitespace, an optional sign, and
    ASCII digits with single underscores between digits. [None] stands for
    the [ValueError] Python raises. *)
Fixpoint parse_digits (s : string) (acc : N) (after_digit : bool) : option N :=
  match s with
  | EmptyString => if after_digit then Some acc else None
  | String c s' =>
      if isdigit c then
        parse_digits s' (acc * 10 + (N.of_nat (nat_of_ascii c) - 48))%N true
      else if ascii_eqb c "_"%char then
        match s' with
        | String c2 _ => if after_digit && isdigit c2
                         then parse_digits s' acc false else None
        | EmptyString => None
        end
      else None
  end.

Definition int_of_string (s : string) : option Z :=
  match strip s with
  | String c s' =>
      if ascii_eqb c "-"%char then
        option_map (fun n => Z.opp (Z.of_N n)) (parse_digits s' 0 false)
      else if ascii_eqb c "+"%char then
        option_map Z.of_N (parse_digits s' 0 false)
      else option_map Z.of_N (parse_digits (String c s') 0 false)
  | EmptyString => None
  end.

(** [urllib.parse.quote(s)] (default [safe='/']). *)
Definition hex_digit (n : nat) : ascii :=
  if (n <? 10)%nat then ascii_of_nat (48 + n) else ascii_of_nat (55 + n).

Definition quote_safe (c : ascii) : bool :=
  let n := nat_of_ascii c in
  ((65 <=? n)%nat && (n <=? 90)%nat) || ((97 <=? n)%nat && (n <=? 122)%nat)
  || isdigit c || ascii_eqb c "_"%char || ascii_eqb c "."%char
  || ascii_eqb c "-"%char || ascii_eqb c "~"%char || ascii_eqb c "/"%char.

Fixpoint quote (s : string) : string :=
  match s with
  | EmptyString => EmptyString
  | String c s' =>
      if quote_safe c then String c (quote s')
      else String "%"%char
             (String (hex_digit (Nat.div (nat_of_ascii c) 16))
               (String (hex_digit (Nat.modulo (nat_of_ascii c) 16)) (quote s')))
  end.

End Py.

(** ** Python dictionaries as association lists in insertion order *)

Module Dict.
Section Dict.
Context {K V : Type} (eqk : K -> K -> bool).

(** [d.get(k)]. *)
Fixpoint get (k : K) (d : list (K * V)) : option V :=
  match d with
  | [] => None
  | (k', v) :: d' => if eqk k k' then Some v else get k d'
  end.

Definition mem (k : K) (d : list (K * V)) : bool :=
  match get k d with Some _ => true | None => false end.

Fixpoint replace (k : K) (v : V) (d : list (K * V)) : list (K * V) :=
  match d with
  | [] => []
  | (k', v') :: d' => if eqk k k' then (k', v) :: replace k v d'
                      else (k', v') :: replace k v d'
  end.

(** [d[k] = v]: an existing key keeps its position, a new key goes last. *)
Definition set (k : K) (v : V) (d : list (K * V)) : list (K * V) :=
  if mem k d then replace k v d else d ++ [(k, v)].

(** [del d[k]]. *)
Definition del (k : K) (d : list (K * V)) : list (K * V) :=
  List.filter (fun kv => negb (eqk k (fst kv))) d.

Definition keys (d : list (K * V)) : list K := List.map fst d.

End Dict.
End Dict.

(** ** The session store [active_calls] *)

(** An entry of [active_calls] is a Python dict whose keys are fixed by the
    code: the initiator writes [call_sid], [timestamp], [customer_name] and
    [application_type]; the webhook writes [responses] and [customer_name],
    and later [verdict_delivered] and [outro_played]; finalization writes
    [processing]. A missing dict key is [None]. *)
Record entry := mkEntry {
  call_sid : option string;
  timestamp : option Z;                 (* datetime, in microseconds *)
  customer_name : option string;
  application_type : option string;
  responses : option (list (Z * string)); (* {question index: utterance} *)
  verdict_delivered : option bool;
  outro_played : option bool;
  processing : option bool
}.

Definition empty_entry : entry :=
  mkEntry None None None None None None None None.

Definition store := list (string * entry).

Definition sget (k : string) (s : store) : option entry := Dict.get String.eqb k s.
Definition smem (k : string) (s : store) : bool := Dict.mem String.eqb k s.
Definition sset (k : string) (e : entry) (s : store) : store := Dict.set String.eqb k e s.
Definition sdel (k : string) (s : store) : store := Dict.del String.eqb k s.

Definition set_responses (e : entry) (r : list (Z * string)) : entry :=
  mkEntry (call_sid e) (timestamp e) (customer_name e) (application_type e)
          (Some r) (verdict_delivered e) (outro_played e) (processing e).

Definition set_delivered (e : entry) : entry :=
  mkEntry (call_sid e) (timestamp e) (customer_name e) (application_type e)
          (responses e) (Some true) (Some true) (processing e).

Definition set_processing (e : entry) : entry :=
  mkEntry (call_sid e) (timestamp e) (customer_name e) (application_type e)
          (responses e) (verdict_delivered e) (outro_played e) (Some true).

(** [session_data.get('verdict_delivered')] as a truth value. *)
Definition delivered_flag (e : entry) : bool :=
  match verdict_delivered e with Some b => b | None => false end.

(** ** External collaborators *)

(** The two rubrics (system prompts) of the decision service. *)
Inductive rubric := LoanRubric | CardRubric.

(** What [client.chat.completions.create(...)] gives back: the message
    content, or any exception raised by the call (transport failure, missing
    content, ...). *)
Inductive llm_reply := Reply (content : string) | TransportFailure.

(** One file written under [responses/] by finalization. [rec_key] is the
    session key the record was produced for; it is not written to the file
    and only serves to state per-session properties. The timestamp field is
    left out. *)
Record saved_record := mkRecord {
  rec_key : string;
  rec_customer_name : string;
  rec_phone_number : string;
  rec_application_type : string;
  rec_verdict : string;
  rec_comments : list string;
  rec_call_duration : option string;
  rec_call_status : option string
}.

(** The observable state: the store, the files written, the requests sent
    to the decision service and the calls placed through the gateway. *)
Record world := mkWorld {
  active_calls : store;
  saved : list saved_record;
  decision_calls : list (rubric * list (Z * string));
  placed_calls : list (string * string)   (* (webhook url, destination) *)
}.

(** ** A state and exception monad *)

Inductive exn := ValueError | KeyError | TypeError | IndexError | ServiceError.

Inductive outcome (A : Type) := Ret (a : A) | Raise (e : exn).
Arguments Ret {A} a.
Arguments Raise {A} e.

Definition M (A : Type) := world -> world * outcome A.

Definition ret {A} (a : A) : M A := fun w => (w, Ret a).
Definition raise {A} (e : exn) : M A := fun w => (w, Raise e).
Definition bind {A B} (m : M A) (f : A -> M B) : M B :=
  fun w => match m w with
           | (w', Ret a) => f a w'
           | (w', Raise e) => (w', Raise e)
           end.
Definition try_except {A} (m : M A) (h : exn -> M A) : M A :=
  fun w => match m w with
           | (w', Raise e) => h e w'
           | r => r
           end.

Notation "x <- m ;; k" := (bind m (fun x => k))
  (at level 61, m at next level, right associativity).
Notation "m ;;; k" := (bind m (fun _ => k))
  (at level 61, right associativity).

Definition get_store : M store := fun w => (w, Ret (active_calls w)).
Definition put_store (s : store) : M unit :=
  fun w => (mkWorld s (saved w) (decision_calls w) (placed_calls w), Ret tt).
Definition of_option {A} (e : exn) (o : option A) : M A :=
  match o with Some a => ret a | None => raise e end.

(** ** [format_phone_number] *)

Definition drop_first (s : string) : string :=
  match s with String _ s' => s' | EmptyString => EmptyString end.

Definition format_phone_number (phone : option string) : option string :=
  if negb (Py.truthy phone) then None else
  let cleaned := Py.filter_chars
                   (fun c => Py.isdigit c || Py.ascii_eqb c "+"%char) (Py.fstr phone) in
  let cleaned := if Py.startswith cleaned "0" then drop_first cleaned else cleaned in
  let cleaned := if Py.startswith cleaned "91" then "+" ++ cleaned else cleaned in
  let cleaned :=
    if negb (Py.startswith cleaned "+") then
      if Py.startswith cleaned "91" then "+" ++ cleaned else "+91" ++ cleaned
    else cleaned in
  if negb (Py.startswith cleaned "+91") || negb (Nat.eqb (String.length cleaned) 13)
  then None else Some cleaned.

(** ** Question catalog ([Loanly.generate_loan_questions] and
    [Loanly.generate_cc_questions]) *)

Definition generate_loan_questions : list string := [
  "What is your current age?";
  "What is your monthly income in Indian Rupees?";
  "Are you a salaried employee, self-employed, or a business owner?";
  "In which city and state do you currently reside?";
  "What is your current occupation and industry?";
  "How much loan amount are you seeking in Indian Rupees?";
  "Do you have a CIBIL credit score?";
  "Are you a first-time loan applicant?";
  "Do you have any existing EMIs or loan commitments?";
  "What is the primary purpose of this loan?"].

Definition generate_cc_questions : list string := [
  "What is your current age?";
  "What is your annual income in Indian Rupees?";
  "Are you employed in private sector, government, or self-employed?"].

(** [questions[i]] with Python's negative indices and [IndexError]. *)
Definition py_index (l : list string) (i : Z) : M string :=
  let n := Z.of_nat (List.length l) in
  if (0 <=? i) && (i <? n) then ret (nth (Z.to_nat i) l "")
  else if (- n <=? i) && (i <? 0) then ret (nth (Z.to_nat (n + i)) l "")
  else raise IndexError.

(** ** Voice-response documents (TwiML) *)

(** The verbs the handlers emit. Every [Say] carries [voice='Polly.Aditi'] and
    every [Gather] carries [input='speech'], [timeout=5], [method='POST'];
    these constant attributes are left out. *)
Set Warnings "-register-all".
Inductive verb :=
| Say (text : string)
| Pause (length : Z)
| Gather (action : string) (inner : list verb)
| Hangup.

(** A top-level verb that waits for more speech. *)
Definition is_gather (v : verb) : bool :=
  match v with Gather _ _ => true | _ => false end.

Definition is_hangup (v : verb) : bool :=
  match v with Hangup => true | _ => false end.

(** ** Webhook requests *)

(** A webhook request: its query string and its form body (POST). *)
Record request := mkRequest {
  req_args : list (string * string);
  req_form : list (string * string)
}.

Definition arg_get (k : string) (r : request) : option string :=
  Dict.get String.eqb k (req_args r).
Definition form_get (k : string) (r : request) : option string :=
  Dict.get String.eqb k (req_form r).

(** [request.values]: query string first, then form. [dict(request.values)]
    is the same lookup. *)
Definition values (r : request) : list (string * string) := req_args r ++ req_form r.
Definition values_get (k : string) (r : request) : option string :=
  Dict.get String.eqb k (values r).

Definition with_default (d : string) (o : option string) : string :=
  match o with Some s => s | None => d end.

(** [int(request.args.get('step', 0) or request.form.get('step', 0))];
    [None] is the [ValueError] of [int]. *)
Definition step_param (r : request) : option Z :=
  if Py.truthy (arg_get "step" r) then Py.int_of_string (Py.fstr (arg_get "step" r))
  else match form_get "step" r with
       | Some s => Py.int_of_string s
       | None => Some 0
       end.

(** [o == s] for an optional string. *)
Definition opt_eqb (o : option string) (s : string) : bool :=
  match o with Some a => String.eqb a s | None => false end.

Definition terminal_statuses : list string :=
  ["completed"; "failed"; "busy"; "no-answer"; "canceled"].

Definition in_list (o : option string) (l : list string) : bool :=
  match o with Some s => existsb (String.eqb s) l | None => false end.

Definition consent_keywords : list string := ["yes"; "okay"; "sure"; "go ahead"].

(** [previous_response and any(word in previous_response.lower() ...)]. *)
Definition is_affirmative (previous_response : string) : bool :=
  Py.truthy (Some previous_response)
  && existsb (fun word => Py.contains word (Py.lower previous_response)) consent_keywords.

Definition quote_opt (o : option string) : M string :=
  match o with Some s => ret (Py.quote s) | None => raise TypeError end.

Definition next_url (app_q name_q : string) (step : Z) (phone_number : option string) : string :=
  "/handle-call?application_type=" ++ app_q ++ "&name=" ++ name_q ++ "&step="
  ++ Py.str_of_Z step ++ "&phone_number="
  ++ Py.quote (if Py.truthy phone_number then Py.fstr phone_number else "").

Definition session_key (phone_number application_type : option string) : string :=
  Py.fstr phone_number ++ "_" ++ Py.fstr application_type.

(** Store [previous_response] under [responses[step-2]] of the session. *)
Definition record_response (key name : string) (idx : Z) (utterance : string) : M unit :=
  s <- get_store ;;
  let s := if smem key s then s
           else sset key (mkEntry None None (Some name) None (Some []) None None None) s in
  put_store s ;;;
  e <- of_option KeyError (sget key s) ;;
  rs <- of_option KeyError (responses e) ;;
  put_store (sset key (set_responses e (Dict.set Z.eqb idx utterance rs)) s).

Definition mark_delivered (key : string) : M unit :=
  s <- get_store ;;
  match sget key s with
  | Some e => put_store (sset key (set_delivered e) s)
  | None => ret tt
  end.

Definition outro_lines : list verb := [
  Say "Thank you for providing the information. We are now evaluating your application.";
  Pause 1;
  Say "Our team will reach out to you within 24 hours with the results. Have a great day!"].

Definition decline_line : string :=
  "I understand this isn't a good time. We'll call you back later. Thank you!".

Definition apology_line : string :=
  "I apologize, but there was an error. We will call you back later.".

(** ** [handle_call]: the Call Flow Controller (route [/handle-call]) *)

(** The body of the [try] block. Setting [os.environ['FLASK_ENV']] and the
    logging are left out. *)
Definition req_application_type (r : request) : option string :=
  Py.or_else (arg_get "application_type" r) (form_get "application_type" r).

Definition req_customer_name (r : request) : string :=
  with_default "Customer"
    (Py.or_else (Some (with_default "Customer" (arg_get "name" r)))
                (Some (with_default "Customer" (form_get "name" r)))).

Definition req_previous_response (r : request) : string :=
  with_default "" (values_get "SpeechResult" r).

Definition req_phone_number (r : request) : option string :=
  Py.or_else (arg_get "phone_number" r) (form_get "phone_number" r).

Definition questions_for (application_type : option string) : list string :=
  if opt_eqb application_type "loan" then generate_loan_questions
  else generate_cc_questions.

(** [display_type]. *)
Definition display_type_of (application_type : option string) : string :=
  if opt_eqb application_type "credit_card" then "credit card"
  else Py.fstr application_type.

Definition transition_line (display_type : string) : string :=
  "Great! I'll ask you a few questions to evaluate your " ++ display_type ++ " application.".

Definition handle_call_body (r : request) : M (list verb) :=
  let application_type := req_application_type r in
  let customer_name := req_customer_name r in
  step <- of_option ValueError (step_param r) ;;
  let previous_response := req_previous_response r in
  let phone_number := req_phone_number r in
  let display_type := display_type_of application_type in
  let questions := questions_for application_type in
  if step =? 0 then
    app_q <- quote_opt application_type ;;
    ret [Say ("Hi " ++ customer_name
              ++ ", is it the right time to speak to you about your "
              ++ display_type ++ " application?");
         Gather (next_url app_q (Py.quote customer_name) 1 phone_number) []]
  else if step =? 1 then
    if is_affirmative previous_response then
      app_q <- quote_opt application_type ;;
      q0 <- py_index questions 0 ;;
      ret [Say (transition_line display_type);
           Pause 1;
           Gather (next_url app_q (Py.quote customer_name) 2 phone_number) [Say q0]]
    else
      ret [Say decline_line; Hangup]
  else if step <? Z.of_nat (List.length questions) + 2 then
    (if Py.truthy (Some previous_response)
     then record_response (session_key phone_number application_type)
                          customer_name (step - 2) previous_response
     else ret tt) ;;;
    let question_index := step - 2 in
    let should_play_outro :=
      (question_index >=? Z.of_nat (List.length questions) - 1)
      || in_list (values_get "CallStatus" r) terminal_statuses
      || Py.contains "Hangup" (with_default "" (values_get "Digits" r))
      || in_list (values_get "DialCallStatus" r) terminal_statuses in
    if should_play_outro then
      mark_delivered (session_key phone_number application_type) ;;;
      ret (outro_lines ++ [Hangup])%list
    else
      app_q <- quote_opt application_type ;;
      q <- py_index questions question_index ;;
      ret [Gather (next_url app_q (Py.quote customer_name) (step + 1) phone_number) [Say q]]
  else ret [].

(** The handler: any exception of the body becomes the apology document. *)
Definition handle_call (r : request) : M (list verb) :=
  try_except (handle_call_body r) (fun _ => ret [Say apology_line; Hangup]).

(** ** The decision service, finalization and the call-status route *)

(** The value [evaluate_*_application] returns for a reply. *)
Definition verdict_of_reply (reply : llm_reply) : string :=
  match reply with
  | Reply content => Py.strip content
  | TransportFailure => "INVESTIGATION_REQUIRED"
  end.

Section WithDecisionService.

(** The language-model call of [evaluate_loan_application] /
    [evaluate_cc_application], as seen by the code. *)
Variable llm : rubric -> list (Z * string) -> llm_reply.

Definition log_decision_call (r : rubric) (data : list (Z * string)) : M unit :=
  fun w => (mkWorld (active_calls w) (saved w) (decision_calls w ++ [(r, data)])%list
                    (placed_calls w), Ret tt).

(** [Loanly.evaluate_loan_application] (rubric [LoanRubric]) and
    [Loanly.evaluate_cc_application] (rubric [CardRubric]):
    [response.choices[0].message.content.strip()], or
    ["INVESTIGATION_REQUIRED"] when the call raises. *)
Definition evaluate (r : rubric) (application_data : list (Z * string)) : M string :=
  log_decision_call r application_data ;;;
  ret (verdict_of_reply (llm r application_data)).

Definition verdict_comment (verdict : string) : string :=
  if String.eqb verdict "YES" then "Application meets all eligibility criteria"
  else if String.eqb verdict "NO"
  then "Application does not meet minimum eligibility requirements"
  else "Further verification and documentation required".

Definition cd_get (k : string) (call_data : list (string * string)) : option string :=
  Dict.get String.eqb k call_data.

(** The call-duration comments; [int(...)] may raise [ValueError]. *)
Definition duration_comments (call_data : list (string * string)) : M (list string) :=
  if Py.truthy (cd_get "CallDuration" call_data) then
    duration <- of_option ValueError
                  (Py.int_of_string (Py.fstr (cd_get "CallDuration" call_data))) ;;
    if duration <? 30 then ret ["Call duration was too short - incomplete information"]
    else if duration <? 60 then ret ["Partial information collected"]
    else ret []
  else ret [].

Definition save_record (rec : saved_record) : M unit :=
  fun w => (mkWorld (active_calls w) (saved w ++ [rec])%list (decision_calls w)
                    (placed_calls w), Ret tt).

(** One iteration of the loop of [process_incomplete_application]. *)
Definition process_session (phone_number : string) (call_data : list (string * string))
    (key : string) : M unit :=
  s <- get_store ;;
  let session_data := match sget key s with Some e => e | None => empty_entry end in
  if delivered_flag session_data then ret tt
  else
    match responses session_data with
    | None => ret tt
    | Some rs =>
        let application_type :=
          if Py.contains "_" key then nth 1 (Py.split_on "_"%char key) "" else "unknown" in
        let name := with_default "Unknown" (customer_name session_data) in
        verdict <- try_except
                     (if String.eqb application_type "credit_card"
                      then evaluate CardRubric rs else evaluate LoanRubric rs)
                     (fun _ => ret "INVESTIGATION_REQUIRED") ;;
        extra <- duration_comments call_data ;;
        save_record
          (mkRecord key name phone_number
             (if String.eqb application_type "credit_card" then "Credit Card" else "Loan")
             verdict (verdict_comment verdict :: extra)
             (cd_get "CallDuration" call_data) (cd_get "CallStatus" call_data)) ;;;
        s1 <- get_store ;;
        e1 <- of_option KeyError (sget key s1) ;;
        let s2 := sset key (set_processing e1) s1 in
        put_store (if smem key s2 then sdel key s2 else s2)
    end.

Fixpoint process_keys (phone_number : string) (call_data : list (string * string))
    (ks : list string) : M unit :=
  match ks with
  | [] => ret tt
  | k :: ks' => process_session phone_number call_data k ;;;
                process_keys phone_number call_data ks'
  end.

(** The keys [k] of the store with [k.startswith(phone_number) or k == phone_number]. *)
Definition matching_keys (phone_number : string) (s : store) : list string :=
  List.filter (fun k => Py.startswith k phone_number || String.eqb k phone_number)
              (Dict.keys s).

(** [process_incomplete_application]: the Finalization Dispatcher. *)
Definition process_incomplete_application (phone_number : string)
    (call_data : list (string * string)) : M unit :=
  try_except
    (s <- get_store ;;
     process_keys phone_number call_data (matching_keys phone_number s))
    (fun _ => ret tt).

(** Route [/call-status]: [None] is the empty [200] answer. *)
Definition call_status (r : request) : M (option (list verb)) :=
  if in_list (values_get "CallStatus" r) terminal_statuses then
    if Py.truthy (values_get "To" r) then
      process_incomplete_application (Py.fstr (values_get "To" r)) (values r) ;;;
      ret (Some (outro_lines ++ [Hangup])%list)
    else ret None
  else ret None.

End WithDecisionService.

(** ** The Outbound Call Initiator (route [/call] and [initiate_automated_call]) *)

Definition BASE_URL : string := "https://3b9c-152-58-116-119.ngrok-free.app".

(** [time_diff.total_seconds() < 30] on microsecond timestamps. *)
Definition cooldown_us : Z := 30000000.

(** The answer of [GET BASE_URL/health]. *)
Inductive health := HealthStatus (code : Z) | HealthConnectionError | HealthOtherError.

(** The telephony gateway and the process environment. [gw_place url to]
    is [client.calls.create(...)]: the call SID, or [None] when it raises. *)
Record gateway := mkGateway {
  gw_health : health;
  gw_credentials : bool;   (* TWILIO_ACCOUNT_SID, _AUTH_TOKEN, _PHONE_NUMBER all set *)
  gw_place : string -> string -> option string
}.

(** The JSON body of [/call]: [type], [phone], [name]. *)
Record call_body := mkBody {
  body_type : option string;
  body_phone : option string;
  body_name : option string
}.

Inductive init_response :=
| Started (call_sid customer phone webhook_url : string)   (* 200 *)
| CallInProgress (call_sid : string)                         (* 409 *)
| InitError (code : Z).                                      (* 400, 500, 503 *)

Definition place_call (gw : gateway) (url to : string) : M string :=
  fun w => (mkWorld (active_calls w) (saved w) (decision_calls w)
                    (placed_calls w ++ [(url, to)])%list,
            match gw_place gw url to with
            | Some sid => Ret sid
            | None => Raise ServiceError
            end).

(** The webhook URL of a new call. *)
Definition callback_url (application_type customer_name customer_number : string) : string :=
  BASE_URL ++ "/handle-call" ++ "?application_type=" ++ Py.quote application_type
  ++ "&name=" ++ Py.quote customer_name ++ "&step=0"
  ++ "&phone_number=" ++ Py.quote customer_number.

Definition initiate_body (gw : gateway) (now : Z) (application_type : string)
    (data : call_body) : M init_response :=
  let customer_name := with_default "Customer" (body_name data) in
  match format_phone_number (body_phone data) with
  | None => raise TypeError   (* [quote(None)] *)
  | Some customer_number =>
      s <- get_store ;;
      conflict <-
        (match sget customer_number s with
         | Some e =>
             last_call_time <- of_option KeyError (timestamp e) ;;
             if now - last_call_time <? cooldown_us then
               sid <- of_option KeyError (call_sid e) ;;
               ret (Some (CallInProgress sid))
             else put_store (sdel customer_number s) ;;; ret None
         | None => ret None
         end) ;;
      match conflict with
      | Some resp => ret resp
      | None =>
          let callback_url := callback_url application_type customer_name customer_number in
          sid <- place_call gw callback_url customer_number ;;
          s' <- get_store ;;
          put_store (sset customer_number
                       (mkEntry (Some sid) (Some now) (Some customer_name)
                                (Some application_type) None None None None) s') ;;;
          ret (Started sid customer_name customer_number callback_url)
      end
  end.

(** [initiate_automated_call]; [now] is the clock for the whole request. *)
Definition initiate_automated_call (gw : gateway) (now : Z) (application_type : string)
    (data : call_body) : M init_response :=
  let health_ok :=
    match gw_health gw with HealthStatus code => code =? 200 | _ => false end in
  if Py.contains "ngrok" BASE_URL && negb health_ok then ret (InitError 503)
  else if negb (gw_credentials gw) then ret (InitError 400)
  else try_except (initiate_body gw now application_type data)
                  (fun _ => ret (InitError 500)).

(** Route [/call]: validation, then [initiate_automated_call]. [data] is
    what [request.get_json()] returned for a JSON request: [None] stands for
    a falsy body such as [null] (a request without a JSON content type is
    refused by Flask before [if not data] is reached). *)
Definition call (gw : gateway) (now : Z) (data : option call_body) : M init_response :=
  match data with
  | None => ret (InitError 400)
  | Some d =>
      if negb (Py.truthy (body_type d)) || negb (in_list (body_type d) ["loan"; "cc"])
      then ret (InitError 400)
      else if negb (Py.truthy (body_phone d)) then ret (InitError 400)
      else match format_phone_number (body_phone d) with
           | None => ret (InitError 400)
           | Some formatted =>
               let application_type :=
                 if opt_eqb (body_type d) "cc" then "credit_card" else Py.fstr (body_type d) in
               initiate_automated_call gw now application_type
                 (mkBody (body_type d) (Some formatted) (body_name d))
           end
  end.

(** ** Runs of the server *)

(** The requests that reach the server and touch the store. *)
Inductive event :=
| EvCall (gw : gateway) (now : Z) (data : option call_body)
| EvHandleCall (r : request)
| EvCallStatus (r : request).

Definition step_event (llm : rubric -> list (Z * string) -> llm_reply)
    (ev : event) (w : world) : world :=
  match ev with
  | EvCall gw now data => fst (call gw now data w)
  | EvHandleCall r => fst (handle_call r w)
  | EvCallStatus r => fst (call_status llm r w)
  end.

Fixpoint run (llm : rubric -> list (Z * string) -> llm_reply)
    (evs : list event) (w : world) : world :=
  match evs with
  | [] => w
  | ev :: evs' => run llm evs' (step_event llm ev w)
  end.

Definition init_world : world := mkWorld [] [] [] [].

(** ** Concrete inputs used below *)

Definition asha_phone : string := "+919999999999".

(** A webhook callback carrying [application_type], [name], [step] and
    [phone_number] in its query string and the transcript in its form. *)
Definition webhook (app step phone speech : string) : request :=
  mkRequest [("application_type", app); ("name", "Asha"); ("step", step);
             ("phone_number", phone)]
            [("SpeechResult", speech)].

Definition status_update (status phone : string) : request :=
  mkRequest [] [("CallStatus", status); ("To", phone)].

Definition working_gateway (sid : string) : gateway :=
  mkGateway (HealthStatus 200) true (fun _ _ => Some sid).

Definition asha_body : call_body := mkBody (Some "loan") (Some asha_phone) (Some "Asha").

(** A decision service that answers outside its three-token vocabulary. *)
Definition llm_maybe (r : rubric) (d : list (Z * string)) : llm_reply := Reply " MAYBE ".

Definition llm_down (r : rubric) (d : list (Z * string)) : llm_reply := TransportFailure.

(** ** Store relations

    [steps Rs m]: every run of [m] relates the store before to the store
    after by [Rs]; [keeps_store m]: [m] leaves the store as it is. *)
Definition steps (Rs : store -> store -> Prop) {A} (m : M A) : Prop :=
  forall w, Rs (active_calls w) (active_calls (fst (m w))).

Definition keeps_store {A} (m : M A) : Prop :=
  forall w, active_calls (fst (m w)) = active_calls w.

Definition steps_from (Rs : store -> store -> Prop) (s0 : store) {A} (m : M A) : Prop :=
  forall w, active_calls w = s0 -> Rs s0 (active_calls (fst (m w))).


Definition delivered_at (k : string) (s : store) : bool :=
  match sget k s with Some e => delivered_flag e | None => false end.

(** Entries flagged [verdict_delivered] sit under keys containing an
    underscore, i.e. under the webhook's session keys. *)
Definition delivered_keys_ok (s : store) : Prop :=
  forall k e, sget k s = Some e -> delivered_flag e = true -> Py.contains "_" k = true.

(** No flag is ever cleared. *)
Definition flag_mono (s s' : store) : Prop :=
  delivered_keys_ok s ->
  delivered_keys_ok s' /\ (forall k, delivered_at k s = true -> delivered_at k s' = true).

Definition keys_unique (s s' : store) : Prop :=
  NoDup (Dict.keys s) -> NoDup (Dict.keys s').

(** The number of false-to-true transitions of the flag of key [k] along a run. *)
Fixpoint flips (llm : rubric -> list (Z * string) -> llm_reply) (k : string)
    (evs : list event) (w : world) : nat :=
  match evs with
  | [] => O
  | ev :: evs' =>
      let w' := step_event llm ev w in
      ((if negb (delivered_at k (active_calls w)) && delivered_at k (active_calls w')
        then 1 else 0) + flips llm k evs' w')%nat
  end.

(** The records of [l] produced for session key [k]. *)
Definition count_key (k : string) (l : list saved_record) : nat :=
  length (List.filter (fun r => String.eqb (rec_key r) k) l).

(** What a finalization run from [w] to [w'] may have added to the saved
    records: [new], each verdict being the mapped reply of a decision-service
    call, at most one record per session key, and a session key that got a
    record is gone from the store. *)
Definition records_ok (llm : rubric -> list (Z * string) -> llm_reply)
    (w w' : world) (new : list saved_record) : Prop :=
  saved w' = (saved w ++ new)%list /\
  (forall r, In r new -> exists rub rs, rec_verdict r = verdict_of_reply (llm rub rs)) /\
  (forall k, (count_key k new <= 1)%nat /\
             (count_key k new = 1%nat -> sget k (active_calls w') = None) /\
             (sget k (active_calls w) = None ->
              count_key k new = 0%nat /\ sget k (active_calls w') = None)).



(** A world in which the last loan answer has been heard: the Controller has
    played the outro and flagged the session [verdict_delivered]. *)
Definition delivered_world : world :=
  fst (handle_call (webhook "loan" "11" asha_phone "I have no other loans") init_world).

(** A world in which one loan answer has been recorded. *)
Definition one_answer_world : world :=
  fst (handle_call (webhook "loan" "2" asha_phone "I am 29 years old") init_world).

(** The call-status data of a completed call to [asha_phone]. *)
Definition completed_data : list (string * string) :=
  [("CallStatus", "completed"); ("To", asha_phone)].


(** The world after a first call to [asha_phone], placed at time 0 with SID
    ["CA1"]. *)
Definition first_call_world : world :=
  fst (initiate_automated_call (working_gateway "CA1") 0 "loan" asha_body init_world).

(** One loan answer, then the answer to the last question (step 11): the
    Controller plays the outro. *)
Definition last_answer_events : list event :=
  [EvHandleCall (webhook "loan" "2" asha_phone "I am 29 years old");
   EvHandleCall (webhook "loan" "11" asha_phone "I have no other loans")].

(** A call placed through [/call], then the Controller recording an answer. *)
Definition call_then_answer_events : list event :=
  [EvCall (working_gateway "CA1") 0 (Some asha_body);
   EvHandleCall (webhook "loan" "2" asha_phone "I am 29 years old")].

(** [all(f(ch) for ch in s)]. *)
Fixpoint str_forall (f : ascii -> bool) (s : string) : bool :=
  match s with
  | EmptyString => true
  | String c s' => f c && str_forall f s'
  end.

(** The characters [format_phone_number] keeps. *)
Definition phone_char (c : ascii) : bool := Py.isdigit c || Py.ascii_eqb c "+"%char.

(** The [responses] dictionary [handle_call] updates under a key: that of
    the stored session, or the empty one it creates for a new session. *)
Definition session_responses (k : string) (s : store) : list (Z * string) :=
  match sget k s with
  | Some e => match responses e with Some rs => rs | None => [] end
  | None => []
  end.

(** A Controller callback at step 4 whose form reports the call as
    completed, with no transcript. *)
Definition completed_midway_request : request :=
  mkRequest (req_args (webhook "loan" "4" asha_phone ""))
            [("SpeechResult", ""); ("CallStatus", "completed")].

(** The call-status data of a completed call to [asha_phone] whose
    [CallDuration] is not an integer. *)
Definition bad_duration_data : list (string * string) :=
  [("CallStatus", "completed"); ("To", asha_phone); ("CallDuration", "12s")].

(** [w] with one more decision-service call [c] in its log. *)
Definition logged_world (w : world) (c : rubric * list (Z * string)) : world :=
  mkWorld (active_calls w) (saved w) (decision_calls w ++ [c])%list (placed_calls w).

(** [keeps_logs m]: [m] leaves the saved records, the decision-service log
    and the placed calls as they are. *)
Definition keeps_logs {A} (m : M A) : Prop :=
  forall w, saved (fst (m w)) = saved w /\ decision_calls (fst (m w)) = decision_calls w
            /\ placed_calls (fst (m w)) = placed_calls w.

(** ** [process_application] (route [/process-application]) *)

(** JSON values; numbers are integers in this model. *)
Inductive jvalue :=
| JNull
| JBool (b : bool)
| JNum (z : Z)
| JStr (s : string)
| JArr (l : list jvalue)
| JObj (fields : list (string * jvalue)).

(** Python truthiness of a decoded JSON value. *)
Definition j_truthy (v : jvalue) : bool :=
  match v with
  | JNull => false
  | JBool b => b
  | JNum z => negb (z =? 0)
  | JStr s => negb (String.eqb s "")
  | JArr l => match l with [] => false | _ => true end
  | JObj l => match l with [] => false | _ => true end
  end.

(** [data.get(k)] on a decoded JSON object ([None] is [null]). *)
Definition j_get (k : string) (fields : list (string * jvalue)) : jvalue :=
  match Dict.get String.eqb k fields with Some v => v | None => JNull end.

(** [str.isdigit] on a string. *)
Definition py_str_isdigit (s : string) : bool :=
  negb (String.eqb s "") && str_forall Py.isdigit s.

(** [''.join(char for char in phone if char.isdigit() or char == '+')] over
    the string elements of an iterable. *)
Definition join_kept (elems : list string) : string :=
  String.concat "" (List.filter (fun e => py_str_isdigit e || String.eqb e "+") elems).

(** The string elements of a list, or [None] if one of them is not a string
    ([.isdigit()] then raises [AttributeError]). *)
Fixpoint all_strings (l : list jvalue) : option (list string) :=
  match l with
  | [] => Some []
  | JStr s :: l' => option_map (cons s) (all_strings l')
  | _ :: _ => None
  end.

(** Lines 26-45 of [format_phone_number], from the joined [cleaned]. *)
Definition format_cleaned (cleaned : string) : option string :=
  let cleaned := if Py.startswith cleaned "0" then drop_first cleaned else cleaned in
  let cleaned := if Py.startswith cleaned "91" then "+" ++ cleaned else cleaned in
  let cleaned :=
    if negb (Py.startswith cleaned "+") then
      if Py.startswith cleaned "91" then "+" ++ cleaned else "+91" ++ cleaned
    else cleaned in
  if negb (Py.startswith cleaned "+91") || negb (Nat.eqb (String.length cleaned) 13)
  then None else Some cleaned.

(** [format_phone_number] applied to a JSON value: the outer [None] is an
    exception (a number or [true] is not iterable). A string is the case
    [format_phone_number] is embedded for; a list iterates its elements and
    an object its keys. *)
Definition format_json_phone (v : jvalue) : option (option string) :=
  if negb (j_truthy v) then Some None else
  match v with
  | JStr s => Some (format_phone_number (Some s))
  | JArr l => option_map (fun es => format_cleaned (join_kept es)) (all_strings l)
  | JObj l => Some (format_cleaned (join_kept (List.map fst l)))
  | JNull | JBool _ | JNum _ => None
  end.

(** One file written under [applications/] by [save_application_result];
    the timestamp field is left out. *)
Record application_result := mkApplication {
  app_name : jvalue;
  app_phone_number : string;
  app_decision : string;
  app_application_type : string
}.

(** The decision-service calls (rubric and [application_data]) and the files
    written by [/process-application]. *)
Record pa_world := mkPAWorld {
  pa_decisions : list (rubric * jvalue);
  pa_saved : list application_result
}.

(** The answer: the JSON result with [saved_to], an error with its status,
    or an exception escaping the handler (Flask's [500] page). *)
Inductive pa_response :=
| PAResult (result saved_to : string)
| PAError (code : Z) (error : string)
| PACrash.

(** [process_application]: [data] is [request.json]; [stamp] is
    [datetime.now().strftime('%Y%m%d_%H%M%S')]; [judge] is the decision
    service as seen by [evaluate_loan_application] / [evaluate_cc_application].
    After the phone check only the truthiness of a falsy [phone_number]
    matters, so it is kept as [None]. *)
Definition process_application (judge : rubric -> jvalue -> llm_reply) (stamp : string)
    (data : option jvalue) (pw : pa_world) : pa_world * pa_response :=
  let data := match data with Some d => d | None => JNull end in
  if negb (j_truthy data) then (pw, PAError 400 "No data provided") else
  match data with
  | JObj fields =>
      let name := j_get "name" fields in
      let phone_number := j_get "phone_number" fields in
      let checked :=
        if j_truthy phone_number then
          match format_json_phone phone_number with
          | Some (Some cn) => inr (Some cn)
          | Some None => inl (PAError 400 "Invalid phone number format")
          | None => inl PACrash
          end
        else inr None in
      match checked with
      | inl resp => (pw, resp)
      | inr phone_number =>
          let application_type := j_get "application_type" fields in
          let application_data := j_get "application_data" fields in
          if negb (j_truthy name && Py.truthy phone_number && j_truthy application_type
                   && j_truthy application_data)
          then (pw, PAError 400 "Missing required parameters")
          else
            match application_type with
            | JStr a =>
                if existsb (String.eqb a) ["loan"; "credit_card"] then
                  let rub := if String.eqb a "loan" then LoanRubric else CardRubric in
                  let result := verdict_of_reply (judge rub application_data) in
                  (mkPAWorld (pa_decisions pw ++ [(rub, application_data)])%list
                             (pa_saved pw ++ [mkApplication name (Py.fstr phone_number)
                                                            result a])%list,
                   PAResult result ("applications/" ++ stamp ++ "_"
                                    ++ Py.fstr phone_number ++ ".json"))
                else (pw, PAError 400 "Invalid application type")
            | _ => (pw, PAError 400 "Invalid application type")
            end
      end
  | _ => (pw, PACrash)
  end.

(** A loan application body with the given phone number and type. *)
Definition pa_body (phone app : jvalue) : jvalue :=
  JObj [("name", JStr "Asha"); ("phone_number", phone); ("application_type", app);
        ("application_data", JObj [("age", JNum 29); ("income", JNum 600000)])].

Definition judge_yes (r : rubric) (d : jvalue) : llm_reply := Reply " YES ".

(** ** [validate_twilio_request] and [FLASK_ENV] *)

(** The parts of a Flask request the decorator and the handlers read:
    [request.method], [request.url], [request.path], the decoded
    [request.query_string], the headers, [request.is_json],
    [request.get_json()], and the parsed [request.args] and [request.form]. *)
Record http_request := mkHttp {
  hr_method : string;
  hr_url : string;
  hr_path : string;
  hr_query_string : string;
  hr_headers : list (string * string);
  hr_is_json : bool;
  hr_json : option jvalue;
  hr_args : list (string * string);
  hr_form : list (string * string)
}.

(** [request.headers.get(k)]: header names compare case-insensitively. *)
Definition header_get (k : string) (hr : http_request) : option string :=
  Dict.get (fun a b => String.eqb (Py.lower a) (Py.lower b)) k (hr_headers hr).

(** The request as the handlers see it. *)
Definition request_of (hr : http_request) : request := mkRequest (hr_args hr) (hr_form hr).

Definition twilio_signature (hr : http_request) : string :=
  with_default "" (header_get "X-TWILIO-SIGNATURE" hr).

(** The URL the signature is checked against. *)
Definition twilio_url (hr : http_request) : string :=
  let url := hr_url hr in
  if Py.contains "ngrok" url then
    let forwarded_proto := with_default "https" (header_get "X-Forwarded-Proto" hr) in
    let forwarded_host := with_default "" (header_get "X-Forwarded-Host" hr) in
    if Py.truthy (Some forwarded_host) then
      let url := forwarded_proto ++ "://" ++ forwarded_host ++ hr_path hr in
      if Py.truthy (Some (hr_query_string hr)) then url ++ "?" ++ hr_query_string hr else url
    else url
  else url.

(** The POST data given to the validator: a decoded JSON body, or a dict of
    strings ([request.form.to_dict()], or [{}]). *)
Inductive post_data := PostJson (v : jvalue) | PostForm (form : list (string * string)).

Definition twilio_post_data (hr : http_request) : post_data :=
  if String.eqb (hr_method hr) "POST" then
    if hr_is_json hr then
      match hr_json hr with
      | Some v => if j_truthy v then PostJson v else PostForm []
      | None => PostForm []
      end
    else PostForm (hr_form hr)
  else PostForm [].

(** What a decorated route answers: the handler's answer, or the [403]
    "Invalid twilio request signature". *)
Inductive guarded (A : Type) := Passed (a : A) | Forbidden.
Arguments Passed {A} a.
Arguments Forbidden {A}.

(** [validate_twilio_request(f)] called with [FLASK_ENV] = [env];
    [valid url post_data signature] is [RequestValidator(token).validate]. *)
Definition validate_twilio_request {A} (valid : string -> post_data -> string -> bool)
    (env : option string) (hr : http_request) (f : M A) : M (guarded A) :=
  let twilio_signature := twilio_signature hr in
  let url := twilio_url hr in
  let post_data := twilio_post_data hr in
  if opt_eqb env "testing" then a <- f ;; ret (Passed a)
  else if valid url post_data twilio_signature then a <- f ;; ret (Passed a)
  else ret Forbidden.

(** [os.environ['FLASK_ENV'] = 'development'] in [handle_call], reached once
    [int(step)] has succeeded. *)
Definition handle_call_env (r : request) (env : option string) : option string :=
  match step_param r with Some _ => Some "development" | None => env end.

(** Route [/handle-call] with its decorator: the new [FLASK_ENV] and the
    run of the decorated handler. *)
Definition serve_handle_call (valid : string -> post_data -> string -> bool)
    (env : option string) (hr : http_request) (w : world)
    : option string * (world * outcome (guarded (list verb))) :=
  let res := validate_twilio_request valid env hr (handle_call (request_of hr)) w in
  match snd res with
  | Ret (Passed _) => (handle_call_env (request_of hr) env, res)
  | _ => (env, res)
  end.

(** A validator that accepts no signature. *)
Definition reject_all (url : string) (d : post_data) (sig : string) : bool := false.

(** A Controller callback at step 0 through the ngrok tunnel, unsigned. *)
Definition greeting_http : http_request :=
  mkHttp "POST" "http://3b9c-152-58-116-119.ngrok-free.app/handle-call" "/handle-call"
         "application_type=loan&name=Asha&step=0&phone_number=%2B919999999999"
         [("Host", "3b9c-152-58-116-119.ngrok-free.app"); ("X-Forwarded-Proto", "https")]
         false None
         [("application_type", "loan"); ("name", "Asha"); ("step", "0");
          ("phone_number", asha_phone)] [].

(** * Proofs *)

Lemma questions_for_nonempty (a : option string) :
  (3 <= length (questions_for a))%nat.
Proof. unfold questions_for; destruct (opt_eqb a "loan"); simpl; lia. Qed.

(** C10: a callback whose step is at or beyond [len(questions) + 2] falls
    through every branch of the state machine: the answer is the empty
    document and the store is untouched. *)
Theorem handle_call_beyond_last_step_is_empty (r : request) (w : world) (n : Z)
  (Hstep : step_param r = Some n)
  (Hn : Z.of_nat (length (questions_for (req_application_type r))) + 2 <= n) :
  handle_call r w = (w, Ret []).
Proof.
  pose proof (questions_for_nonempty (req_application_type r)).
  unfold handle_call, handle_call_body, try_except, bind, of_option.
  rewrite Hstep. unfold ret at 1. cbv beta iota zeta.
  rewrite (proj2 (Z.eqb_neq n 0)) by lia.
  rewrite (proj2 (Z.eqb_neq n 1)) by lia.
  rewrite (proj2 (Z.ltb_ge n _)) by lia.
  reflexivity.
Qed.

Lemma handle_call_beyond_last_step_is_empty_witness :
  handle_call (webhook "loan" "12" asha_phone "hello") init_world = (init_world, Ret []).
Proof.
  apply (handle_call_beyond_last_step_is_empty _ _ 12); [reflexivity | simpl; lia].
Defined.

(** C7: the Controller never lets an exception escape: it always answers
    with a document, and when the body raises, that document is the apology
    line followed by a hangup. *)
Theorem handle_call_never_raises (r : request) (w : world) :
  (exists w' doc, handle_call r w = (w', Ret doc)) /\
  (forall w' e, handle_call_body r w = (w', Raise e) ->
                handle_call r w = (w', Ret [Say apology_line; Hangup])).
Proof.
  unfold handle_call, try_except.
  split.
  - destruct (handle_call_body r w) as [w' [doc | e]]; cbn; unfold ret; eauto.
  - intros w' e H. rewrite H. reflexivity.
Qed.

Lemma handle_call_never_raises_witness :
  handle_call (webhook "loan" "two" asha_phone "") init_world
  = (init_world, Ret [Say apology_line; Hangup]).
Proof.
  apply (proj2 (handle_call_never_raises _ _) init_world ValueError).
  reflexivity.
Defined.

(** C3: at step 1 the utterance is affirmative exactly when its lower-cased
    text contains one of "yes", "okay", "sure", "go ahead"; an affirmative
    answer yields the transition line, a pause and a [Gather] for step 2 that
    speaks question 0; any other answer ("no thanks", empty) yields the
    decline line and a hangup, with no [Gather] and the store untouched. *)
Theorem consent_step_branches (r : request) (w : world) (a : string)
  (Hstep : step_param r = Some 1)
  (Happ : req_application_type r = Some a) :
  (is_affirmative (req_previous_response r) = true <->
   exists word, In word consent_keywords
                /\ Py.contains word (Py.lower (req_previous_response r)) = true) /\
  (is_affirmative (req_previous_response r) = true ->
   handle_call r w =
     (w, Ret [Say (transition_line (display_type_of (Some a)));
              Pause 1;
              Gather (next_url (Py.quote a) (Py.quote (req_customer_name r)) 2
                               (req_phone_number r))
                     [Say (nth 0 (questions_for (Some a)) "")]])) /\
  (is_affirmative (req_previous_response r) = false ->
   handle_call r w = (w, Ret [Say decline_line; Hangup])) /\
  is_affirmative "Yes sure" = true /\
  is_affirmative "no thanks" = false /\
  is_affirmative "" = false.
Proof.
  refine (conj _ (conj _ (conj _ (conj eq_refl (conj eq_refl eq_refl))))).
  - unfold is_affirmative.
    destruct (req_previous_response r) as [|c u].
    + split; [discriminate|]. intros [word [Hin Hc]].
      simpl in Hin. repeat destruct Hin as [<-|Hin]; try discriminate. contradiction.
    + apply existsb_exists.
  - intros Haff.
    unfold handle_call, handle_call_body, try_except, bind, of_option.
    rewrite Hstep. unfold ret at 1. cbv beta iota zeta.
    rewrite Haff, Happ. simpl (1 =? 0). cbv beta iota.
    unfold quote_opt, py_index.
    destruct (questions_for (Some a)) eqn:Hq.
    + pose proof (questions_for_nonempty (Some a)). rewrite Hq in H. simpl in H. lia.
    + reflexivity.
  - intros Hneg.
    unfold handle_call, handle_call_body, try_except, bind, of_option.
    rewrite Hstep. unfold ret at 1. cbv beta iota zeta.
    rewrite Hneg. reflexivity.
Qed.

Lemma consent_step_branches_witness :
  handle_call (webhook "loan" "1" asha_phone "no thanks") init_world
  = (init_world, Ret [Say decline_line; Hangup]).
Proof.
  apply (proj1 (proj2 (proj2 (consent_step_branches (webhook "loan" "1" asha_phone "no thanks")
                                       init_world "loan" eq_refl eq_refl)))).
  reflexivity.
Defined.

(** C2: at step 2 with the utterance "I am 29 years old" for a loan call,
    the utterance is stored at [responses[0]] and the answer listens for
    step 3, but the question it speaks is question 0 again (the one already
    asked by the step-1 answer), not question 1. *)
Theorem step2_asks_question0_again :
  let w' := fst (handle_call (webhook "loan" "2" asha_phone "I am 29 years old") init_world) in
  let doc := snd (handle_call (webhook "loan" "2" asha_phone "I am 29 years old") init_world) in
  sget "+919999999999_loan" (active_calls w')
    = Some (mkEntry None None (Some "Asha") None (Some [(0, "I am 29 years old")])
                    None None None) /\
  doc = Ret [Gather (next_url "loan" "Asha" 3 (Some asha_phone))
                    [Say (nth 0 generate_loan_questions "")]] /\
  nth 0 generate_loan_questions "" <> nth 1 generate_loan_questions "".
Proof.
  vm_compute. split; [reflexivity|]. split; [reflexivity|]. discriminate.
Qed.

(** ** The store operations *)

Lemma sget_replace (k k' : string) (v : entry) (d : store) :
  sget k (Dict.replace String.eqb k' v d)
  = if String.eqb k k' then option_map (fun _ => v) (sget k d) else sget k d.
Proof.
  unfold sget. induction d as [|[k0 v0] d IH]; simpl.
  - destruct (String.eqb k k'); reflexivity.
  - destruct (String.eqb_spec k' k0) as [->|Hne]; simpl.
    + destruct (String.eqb_spec k k0); simpl; [reflexivity|exact IH].
    + destruct (String.eqb_spec k k0) as [->|Hne2].
      * destruct (String.eqb_spec k0 k'); [congruence|reflexivity].
      * exact IH.
Qed.

Lemma sget_app (k : string) (d1 d2 : store) :
  sget k (d1 ++ d2)%list = match sget k d1 with Some v => Some v | None => sget k d2 end.
Proof.
  unfold sget. induction d1 as [|[k0 v0] d1 IH]; simpl; [reflexivity|].
  destruct (String.eqb k k0); [reflexivity|exact IH].
Qed.

Lemma sget_sset (k k' : string) (v : entry) (d : store) :
  sget k (sset k' v d) = if String.eqb k k' then Some v else sget k d.
Proof.
  unfold sset, Dict.set. fold (smem k' d).
  destruct (smem k' d) eqn:Hm.
  - rewrite sget_replace. destruct (String.eqb_spec k k') as [->|]; [|reflexivity].
    unfold smem, Dict.mem in Hm. fold (sget k' d) in Hm.
    destruct (sget k' d); [reflexivity|discriminate].
  - rewrite sget_app. unfold smem, Dict.mem in Hm. fold (sget k' d) in Hm.
    destruct (String.eqb_spec k k') as [->|Hne].
    + destruct (sget k' d); [discriminate|]. simpl.
      rewrite String.eqb_refl. reflexivity.
    + destruct (sget k d); [reflexivity|]. simpl.
      destruct (String.eqb_spec k k'); [congruence|reflexivity].
Qed.

Lemma sget_sdel (k k' : string) (d : store) :
  sget k (sdel k' d) = if String.eqb k k' then None else sget k d.
Proof.
  unfold sget, sdel, Dict.del. induction d as [|[k0 v0] d IH]; simpl.
  - destruct (String.eqb k k'); reflexivity.
  - destruct (String.eqb_spec k' k0) as [->|Hne]; simpl.
    + rewrite IH. destruct (String.eqb_spec k k0) as [->|]; reflexivity.
    + destruct (String.eqb_spec k k0) as [->|Hne2].
      * destruct (String.eqb_spec k0 k'); [congruence|reflexivity].
      * exact IH.
Qed.

Lemma smem_sget (k : string) (d : store) :
  smem k d = match sget k d with Some _ => true | None => false end.
Proof. reflexivity. Qed.

Lemma keys_replace (k : string) (v : entry) (d : store) :
  Dict.keys (Dict.replace String.eqb k v d) = Dict.keys d.
Proof.
  unfold Dict.keys. induction d as [|[k0 v0] d IH]; simpl; [reflexivity|].
  destruct (String.eqb k k0); simpl; rewrite IH; reflexivity.
Qed.

Lemma sget_none_not_in (k : string) (d : store) :
  sget k d = None -> ~ In k (Dict.keys d).
Proof.
  unfold sget, Dict.keys. induction d as [|[k0 v0] d IH]; simpl; [tauto|].
  destruct (String.eqb_spec k k0) as [->|Hne]; [discriminate|].
  intros H [Heq|Hin]; [congruence|exact (IH H Hin)].
Qed.

Lemma sset_nodup (k : string) (v : entry) (d : store) :
  NoDup (Dict.keys d) -> NoDup (Dict.keys (sset k v d)).
Proof.
  intros Hnd. unfold sset, Dict.set. fold (smem k d). rewrite smem_sget.
  destruct (sget k d) eqn:Hg.
  - rewrite keys_replace. exact Hnd.
  - unfold Dict.keys. rewrite map_app. simpl.
    apply NoDup_app; [exact Hnd | repeat constructor; simpl; tauto |].
    intros x Hx [<-|[]]. exact (sget_none_not_in _ _ Hg Hx).
Qed.

Lemma sdel_nodup (k : string) (d : store) :
  NoDup (Dict.keys d) -> NoDup (Dict.keys (sdel k d)).
Proof.
  unfold sdel, Dict.del, Dict.keys. induction d as [|[k0 v0] d IH]; simpl; [auto|].
  intros Hnd. inversion Hnd as [|? ? Hnin Hnd']; subst.
  destruct (String.eqb k k0); simpl; [exact (IH Hnd')|].
  constructor; [|exact (IH Hnd')].
  intros Hin. apply Hnin. apply in_map_iff in Hin as [[k1 v1] [Heq Hin]].
  apply filter_In in Hin as [Hin _]. simpl in Heq; subst.
  apply in_map_iff. exists (k0, v1). auto.
Qed.

(** ** Store relations preserved by computations *)



Lemma keeps_try_evaluate llm (app : string) (rs : list (Z * string)) (h : exn -> M string) :
  keeps_store (try_except (if String.eqb app "credit_card"
                           then evaluate llm CardRubric rs else evaluate llm LoanRubric rs) h).
Proof.
  intros w. unfold try_except, evaluate, bind, log_decision_call, ret.
  destruct (String.eqb app "credit_card"); reflexivity.
Qed.

Lemma keeps_duration_comments (cd : list (string * string)) : keeps_store (duration_comments cd).
Proof.
  intros w. unfold duration_comments, bind, of_option, ret, raise.
  destruct (Py.truthy _); [|reflexivity].
  destruct (Py.int_of_string _) as [d|]; cbn; [|reflexivity].
  destruct (d <? 30); [reflexivity|]. destruct (d <? 60); reflexivity.
Qed.

Lemma keeps_save_record (rec : saved_record) : keeps_store (save_record rec).
Proof. intros w. reflexivity. Qed.

Section Steps.
Variable Rs : store -> store -> Prop.
Hypothesis Rs_refl : forall s, Rs s s.
Hypothesis Rs_trans : forall s1 s2 s3, Rs s1 s2 -> Rs s2 s3 -> Rs s1 s3.

Lemma steps_ret {A} (a : A) : steps Rs (ret a).
Proof. intros w. apply Rs_refl. Qed.

Lemma steps_raise {A} (e : exn) : steps Rs (@raise A e).
Proof. intros w. apply Rs_refl. Qed.

Lemma steps_bind {A B} (m : M A) (f : A -> M B) :
  steps Rs m -> (forall a, steps Rs (f a)) -> steps Rs (bind m f).
Proof.
  intros Hm Hf w. unfold bind. specialize (Hm w).
  destruct (m w) as [w1 [a|e]]; simpl in *; [|exact Hm].
  exact (Rs_trans _ _ _ Hm (Hf a w1)).
Qed.

Lemma steps_try {A} (m : M A) (h : exn -> M A) :
  steps Rs m -> (forall e, steps Rs (h e)) -> steps Rs (try_except m h).
Proof.
  intros Hm Hh w. unfold try_except. specialize (Hm w).
  destruct (m w) as [w1 [a|e]]; simpl in *; [exact Hm|].
  exact (Rs_trans _ _ _ Hm (Hh e w1)).
Qed.

Lemma steps_get_store : steps Rs get_store.
Proof. intros w. apply Rs_refl. Qed.

Lemma steps_of_option {A} (e : exn) (o : option A) : steps Rs (of_option e o).
Proof. destruct o; [apply steps_ret|apply steps_raise]. Qed.

Lemma steps_quote_opt (o : option string) : steps Rs (quote_opt o).
Proof. destruct o; [apply steps_ret|apply steps_raise]. Qed.

Lemma steps_py_index (l : list string) (i : Z) : steps Rs (py_index l i).
Proof.
  unfold py_index.
  destruct (_ && _); [apply steps_ret|]. destruct (_ && _); [apply steps_ret|apply steps_raise].
Qed.

Lemma steps_log_decision_call (r : rubric) (d : list (Z * string)) :
  steps Rs (log_decision_call r d).
Proof. intros w. apply Rs_refl. Qed.

Lemma steps_save_record (rec : saved_record) : steps Rs (save_record rec).
Proof. intros w. apply Rs_refl. Qed.

Lemma steps_place_call (gw : gateway) (url to : string) : steps Rs (place_call gw url to).
Proof. intros w. apply Rs_refl. Qed.

Lemma steps_evaluate llm (r : rubric) (d : list (Z * string)) :
  steps Rs (evaluate llm r d).
Proof.
  unfold evaluate. apply steps_bind; [apply steps_log_decision_call|intros _].
  apply steps_ret.
Qed.

Lemma steps_duration_comments (cd : list (string * string)) :
  steps Rs (duration_comments cd).
Proof.
  unfold duration_comments. destruct (Py.truthy _); [|apply steps_ret].
  apply steps_bind; [apply steps_of_option|intros d].
  destruct (d <? 30); [apply steps_ret|]. destruct (d <? 60); apply steps_ret.
Qed.

Create HintDb steps.
#[local] Hint Resolve steps_ret steps_raise steps_get_store steps_of_option
  steps_quote_opt steps_py_index steps_log_decision_call steps_save_record
  steps_place_call steps_evaluate steps_duration_comments : steps.

Ltac steps_split :=
  repeat match goal with
  | |- steps _ (bind _ _) => apply steps_bind; [|intros ?]
  | |- steps _ (try_except _ _) => apply steps_try; [|intros ?]
  | |- steps _ (if ?b then _ else _) => destruct b
  | |- steps _ (match ?x with _ => _ end) => destruct x
  end; auto with steps.

Lemma steps_record_response (key name : string) (idx : Z) (utt : string) :
  (forall s, sget key s = None ->
     Rs s (sset key (mkEntry None None (Some name) None (Some []) None None None) s)) ->
  (forall s e x, sget key s = Some e -> Rs s (sset key (set_responses e x) s)) ->
  steps Rs (record_response key name idx utt).
Proof.
  intros Hfresh Hupd w.
  unfold record_response, bind, get_store, put_store, of_option, ret, raise; cbn.
  rewrite smem_sget. destruct (sget key (active_calls w)) as [e0|] eqn:Hg.
  - rewrite Hg. destruct (responses e0); cbn; [apply Hupd; exact Hg|apply Rs_refl].
  - rewrite sget_sset, String.eqb_refl. cbn.
    apply (Rs_trans _ _ _ (Hfresh _ Hg)). apply Hupd. rewrite sget_sset, String.eqb_refl.
    reflexivity.
Qed.

Lemma steps_mark_delivered (key : string) :
  (forall s e, sget key s = Some e -> Rs s (sset key (set_delivered e) s)) ->
  steps Rs (mark_delivered key).
Proof.
  intros Hupd w. unfold mark_delivered, bind, get_store, put_store, ret; cbn.
  destruct (sget key (active_calls w)) eqn:Hg; cbn; [exact (Hupd _ _ Hg)|apply Rs_refl].
Qed.


Lemma steps_of_steps_from {A} (m : M A) : (forall s0, steps_from Rs s0 m) -> steps Rs m.
Proof. intros H w. exact (H _ w eq_refl). Qed.

Lemma steps_from_keep {A B} (s0 : store) (m : M A) (f : A -> M B) :
  keeps_store m -> (forall a, steps_from Rs s0 (f a)) -> steps_from Rs s0 (bind m f).
Proof.
  intros Hm Hf w Hw. unfold bind. specialize (Hm w).
  destruct (m w) as [w1 [a|e]]; simpl in *.
  - apply Hf. congruence.
  - rewrite Hm, Hw. apply Rs_refl.
Qed.

Lemma steps_from_get {B} (s0 : store) (f : store -> M B) :
  steps_from Rs s0 (f s0) -> steps_from Rs s0 (bind get_store f).
Proof. intros Hf w Hw. unfold bind, get_store. rewrite Hw. exact (Hf w Hw). Qed.

Lemma steps_from_of_option {A B} (s0 : store) (e : exn) (o : option A) (f : A -> M B) :
  (forall a, o = Some a -> steps_from Rs s0 (f a)) -> steps_from Rs s0 (bind (of_option e o) f).
Proof.
  intros Hf w Hw. destruct o as [a|]; cbn.
  - exact (Hf a eq_refl w Hw).
  - rewrite Hw. apply Rs_refl.
Qed.

Lemma steps_from_put (s0 s : store) : Rs s0 s -> steps_from Rs s0 (put_store s).
Proof. intros H w Hw. exact H. Qed.

Lemma steps_from_ret {A} (s0 : store) (a : A) : steps_from Rs s0 (ret a).
Proof. intros w Hw. rewrite <- Hw. apply Rs_refl. Qed.

Lemma steps_process_session llm (P : string) (cd : list (string * string)) (key : string) :
  (forall s e, sget key s = Some e -> delivered_flag e = false -> responses e <> None ->
     Rs s (sdel key (sset key (set_processing e) s))) ->
  steps Rs (process_session llm P cd key).
Proof.
  intros Hdel. apply steps_of_steps_from. intros s0.
  unfold process_session. apply steps_from_get.
  destruct (sget key s0) as [e|] eqn:Hg; cbn; [|apply steps_from_ret].
  destruct (delivered_flag e) eqn:Hf; [apply steps_from_ret|].
  destruct (responses e) as [rs|] eqn:Hr; [|apply steps_from_ret].
  apply steps_from_keep; [apply keeps_try_evaluate|intros verdict].
  apply steps_from_keep; [apply keeps_duration_comments|intros extra].
  apply steps_from_keep; [apply keeps_save_record|intros _].
  apply steps_from_get. apply steps_from_of_option. intros e1 He1.
  rewrite Hg in He1. injection He1 as <-.
  apply steps_from_put.
  rewrite smem_sget, sget_sset, String.eqb_refl.
  apply Hdel; [exact Hg|exact Hf|rewrite Hr; discriminate].
Qed.

Lemma steps_initiate_body (gw : gateway) (now : Z) (app : string) (data : call_body) :
  (forall cn, format_phone_number (body_phone data) = Some cn ->
     (forall s, Rs s (sdel cn s)) /\
     (forall s sid, sget cn s = None ->
        Rs s (sset cn (mkEntry (Some sid) (Some now)
                         (Some (with_default "Customer" (body_name data)))
                         (Some app) None None None None) s))) ->
  steps Rs (initiate_body gw now app data).
Proof.
  intros Hcn w. unfold initiate_body.
  destruct (format_phone_number (body_phone data)) as [cn|] eqn:Hf; [|apply Rs_refl].
  destruct (Hcn cn eq_refl) as [Hdel Hset].
  unfold bind, get_store, put_store, of_option, ret, raise, place_call; cbn.
  destruct (sget cn (active_calls w)) as [e|] eqn:Hg; cbn.
  - destruct (timestamp e) as [ts|]; cbn; [|apply Rs_refl].
    destruct (now - ts <? cooldown_us); cbn.
    + destruct (call_sid e); apply Rs_refl.
    + destruct (gw_place gw _ cn) as [sid|]; cbn; [|apply Hdel].
      eapply Rs_trans; [apply (Hdel (active_calls w))|].
      apply Hset. rewrite sget_sdel, String.eqb_refl. reflexivity.
  - destruct (gw_place gw _ cn) as [sid|]; cbn; [|apply Rs_refl].
    apply Hset. exact Hg.
Qed.

Section Helpers.
Hypothesis record_response_steps :
  forall p a name idx utt, steps Rs (record_response (session_key p a) name idx utt).
Hypothesis mark_delivered_steps : forall p a, steps Rs (mark_delivered (session_key p a)).

Lemma steps_handle_call (r : request) : steps Rs (handle_call r).
Proof. unfold handle_call, handle_call_body. steps_split. Qed.
End Helpers.

Section Finalize.
Variable llm : rubric -> list (Z * string) -> llm_reply.
Hypothesis process_session_steps :
  forall P cd key, steps Rs (process_session llm P cd key).

Lemma steps_process_keys (P : string) (cd : list (string * string)) (ks : list string) :
  steps Rs (process_keys llm P cd ks).
Proof. induction ks; simpl; steps_split. Qed.

Lemma steps_call_status (r : request) : steps Rs (call_status llm r).
Proof.
  unfold call_status, process_incomplete_application. steps_split.
  apply steps_process_keys.
Qed.
End Finalize.

Section Initiate.
Hypothesis initiate_body_steps :
  forall gw now app data, steps Rs (initiate_body gw now app data).

Lemma steps_call (gw : gateway) (now : Z) (data : option call_body) :
  steps Rs (call gw now data).
Proof. unfold call, initiate_automated_call. steps_split. Qed.
End Initiate.

End Steps.

(** ** Finalization, one session at a time *)

Lemma sdel_sset (k : string) (v : entry) (d : store) : sdel k (sset k v d) = sdel k d.
Proof.
  unfold sdel, sset, Dict.set, Dict.del. destruct (Dict.mem String.eqb k d).
  - induction d as [|[k0 v0] d IH]; simpl; [reflexivity|].
    destruct (String.eqb_spec k k0); simpl.
    + rewrite IH. destruct (String.eqb_spec k k0); [reflexivity|contradiction].
    + destruct (String.eqb_spec k k0); [contradiction|]. simpl. rewrite IH. reflexivity.
  - rewrite filter_app. simpl. rewrite String.eqb_refl. simpl. apply app_nil_r.
Qed.

Lemma process_session_effect llm (P : string) (cd : list (string * string)) (key : string)
    (w : world) :
  let w' := fst (process_session llm P cd key w) in
  placed_calls w' = placed_calls w /\
  ((active_calls w' = active_calls w /\ saved w' = saved w) \/
   (exists e rs r rub,
      sget key (active_calls w) = Some e /\ delivered_flag e = false /\
      responses e = Some rs /\
      active_calls w' = sdel key (active_calls w) /\
      saved w' = (saved w ++ [r])%list /\ rec_key r = key /\
      rec_verdict r = verdict_of_reply (llm rub rs))).
Proof.
  unfold process_session, evaluate, duration_comments, save_record, log_decision_call,
    try_except, bind, get_store, put_store, of_option, ret, raise; cbn -[sget smem sset sdel].
  destruct (sget key (active_calls w)) as [e|] eqn:Hg; cbn -[sget smem sset sdel]; [|auto].
  destruct (delivered_flag e) eqn:Hf; cbn -[sget smem sset sdel]; [auto|].
  destruct (responses e) as [rs|] eqn:Hr; cbn -[sget smem sset sdel]; [|auto].
  destruct (String.eqb (if Py.contains "_" key then _ else _) "credit_card");
  cbn -[sget smem sset sdel]; (destruct (Py.truthy (cd_get "CallDuration" cd)); cbn -[sget smem sset sdel];
   [destruct (Py.int_of_string _) as [d|]; cbn -[sget smem sset sdel];
    [destruct (d <? 30); [|destruct (d <? 60)]|] | ]);
  cbn -[sget smem sset sdel]; rewrite ?Hg; cbn -[sget smem sset sdel]; try (split; [reflexivity|left; split; reflexivity]);
  (split; [reflexivity|right]);
  rewrite ?smem_sget, ?sget_sset, ?String.eqb_refl, ?sdel_sset;
  eexists _, _, _, _; repeat split; eauto.
Qed.

Lemma count_key_app (k : string) (l1 l2 : list saved_record) :
  count_key k (l1 ++ l2)%list = (count_key k l1 + count_key k l2)%nat.
Proof. unfold count_key. rewrite filter_app, length_app. reflexivity. Qed.

Lemma records_ok_nil llm (w : world) : records_ok llm w w [].
Proof.
  unfold records_ok. rewrite app_nil_r. split; [reflexivity|]. split; [intros r []|].
  intros k. unfold count_key. simpl. split; [lia|]. split; [discriminate|auto].
Qed.

Lemma records_ok_trans llm (w w1 w2 : world) (n0 n1 : list saved_record) :
  records_ok llm w w1 n0 -> records_ok llm w1 w2 n1 -> records_ok llm w w2 (n0 ++ n1)%list.
Proof.
  intros [Hs0 [Hv0 Hk0]] [Hs1 [Hv1 Hk1]]. unfold records_ok.
  split; [rewrite Hs1, Hs0, app_assoc; reflexivity|].
  split; [intros r Hr; apply in_app_or in Hr as [Hr|Hr]; auto|].
  intros k. rewrite count_key_app.
  destruct (Hk0 k) as [Hle0 [Hone0 Hnone0]]. destruct (Hk1 k) as [Hle1 [Hone1 Hnone1]].
  destruct (count_key k n0) as [|[|c0]] eqn:C0; [|clear Hle0|lia].
  - simpl. split; [exact Hle1|]. split; [exact Hone1|].
    intros Hn. destruct (Hnone0 Hn) as [_ Hn1]. exact (Hnone1 Hn1).
  - destruct (Hnone1 (Hone0 eq_refl)) as [C1 Hn2]. rewrite C1.
    split; [lia|]. split; [intros _; exact Hn2|].
    intros Hn. destruct (Hnone0 Hn) as [C _]. discriminate.
Qed.

Lemma process_session_records llm (P : string) (cd : list (string * string))
    (key : string) (w : world) :
  exists new, records_ok llm w (fst (process_session llm P cd key w)) new.
Proof.
  destruct (process_session_effect llm P cd key w) as [_ [[Hst Hsv]|Hpend]].
  - exists []. unfold records_ok. rewrite Hst, Hsv, app_nil_r.
    split; [reflexivity|]. split; [intros r []|].
    intros k. unfold count_key. simpl. split; [lia|]. split; [discriminate|auto].
  - destruct Hpend as (e & rs & r & rub & Hg & _ & _ & Hst & Hsv & Hkey & Hverd).
    exists [r]. unfold records_ok. rewrite Hst, Hsv.
    split; [reflexivity|]. split; [intros r' [<-|[]]; eauto|].
    intros k. unfold count_key. simpl. rewrite Hkey, sget_sdel.
    destruct (String.eqb_spec key k) as [->|Hne].
    + rewrite String.eqb_refl. simpl. split; [lia|]. split; [auto|].
      rewrite Hg. discriminate.
    + destruct (String.eqb_spec k key); [congruence|]. simpl.
      split; [lia|]. split; [discriminate|auto].
Qed.

Lemma process_keys_records llm (P : string) (cd : list (string * string))
    (ks : list string) (w : world) :
  exists new, records_ok llm w (fst (process_keys llm P cd ks w)) new.
Proof.
  revert w. induction ks as [|k ks IH]; intros w; simpl.
  - exists []. apply records_ok_nil.
  - unfold bind.
    destruct (process_session_records llm P cd k w) as [n0 H0].
    destruct (process_session llm P cd k w) as [w1 [u|e]]; simpl in *.
    + destruct (IH w1) as [n1 H1]. exists (n0 ++ n1)%list.
      exact (records_ok_trans _ _ _ _ _ _ H0 H1).
    + exists n0. exact H0.
Qed.

Lemma finalization_records llm (P : string) (cd : list (string * string)) (w : world) :
  exists new, records_ok llm w (fst (process_incomplete_application llm P cd w)) new.
Proof.
  unfold process_incomplete_application, try_except, bind, get_store.
  destruct (process_keys_records llm P cd (matching_keys P (active_calls w)) w) as [n H].
  exists n. destruct (process_keys llm P cd _ w) as [w1 [u|e]]; exact H.
Qed.

(** ** The [verdict_delivered] flag is never cleared *)

Lemma flag_mono_refl (s : store) : flag_mono s s.
Proof. intros H. split; auto. Qed.

Lemma flag_mono_trans (s1 s2 s3 : store) :
  flag_mono s1 s2 -> flag_mono s2 s3 -> flag_mono s1 s3.
Proof.
  intros H12 H23 Hok1. destruct (H12 Hok1) as [Hok2 Hd12].
  destruct (H23 Hok2) as [Hok3 Hd23]. split; auto.
Qed.

Lemma flag_mono_sset (k : string) (v : entry) (s : store) :
  (delivered_keys_ok s -> delivered_flag v = true -> Py.contains "_" k = true) ->
  (delivered_at k s = true -> delivered_flag v = true) ->
  flag_mono s (sset k v s).
Proof.
  intros Hu Hd Hok. split.
  - intros k0 e0. rewrite sget_sset. destruct (String.eqb_spec k0 k) as [->|].
    + intros [= <-] Hf. exact (Hu Hok Hf).
    + apply Hok.
  - intros k0. unfold delivered_at at 2. rewrite sget_sset.
    destruct (String.eqb_spec k0 k) as [->|]; [exact Hd|auto].
Qed.

Lemma flag_mono_sdel (k : string) (s : store) :
  (delivered_keys_ok s -> delivered_at k s = false) -> flag_mono s (sdel k s).
Proof.
  intros Hd Hok. split.
  - intros k0 e0. rewrite sget_sdel. destruct (String.eqb k0 k); [discriminate|apply Hok].
  - intros k0. unfold delivered_at at 2. rewrite sget_sdel.
    destruct (String.eqb_spec k0 k) as [->|]; [|auto].
    rewrite (Hd Hok). discriminate.
Qed.

Lemma contains_underscore_cons (c : ascii) (s : string) :
  Py.contains "_" (String c s) = Ascii.eqb c "_" || Py.contains "_" s.
Proof.
  cbn [Py.contains String.prefix].
  destruct (ascii_dec "_" c) as [Heq|Hne]; destruct (Ascii.eqb_spec c "_") as [E|E];
    [destruct s; reflexivity | congruence | congruence | reflexivity].
Qed.

Lemma contains_underscore_mid (x y : string) :
  Py.contains "_" (x ++ String "_" y) = true.
Proof.
  induction x as [|c x IH].
  - simpl. destruct y; reflexivity.
  - cbn [append]. rewrite contains_underscore_cons, IH. apply orb_true_r.
Qed.

Lemma session_key_underscore (p a : option string) :
  Py.contains "_" (session_key p a) = true.
Proof. apply contains_underscore_mid. Qed.

Lemma filter_chars_no_underscore (keep : ascii -> bool) (s : string) :
  keep "_"%char = false -> Py.contains "_" (Py.filter_chars keep s) = false.
Proof.
  intros Hk. induction s as [|c s IH]; simpl; [reflexivity|].
  destruct (keep c) eqn:Hc; [|exact IH].
  rewrite contains_underscore_cons, IH.
  destruct (Ascii.eqb_spec c "_"); [congruence|reflexivity].
Qed.

Lemma format_phone_number_no_underscore (p : option string) (cn : string) :
  format_phone_number p = Some cn -> Py.contains "_" cn = false.
Proof.
  unfold format_phone_number. destruct (Py.truthy p); [|discriminate]. simpl negb. cbv iota.
  cbv zeta.
  generalize (filter_chars_no_underscore
                (fun c => Py.isdigit c || Py.ascii_eqb c "+"%char) (Py.fstr p) eq_refl).
  generalize (Py.filter_chars (fun c => Py.isdigit c || Py.ascii_eqb c "+"%char) (Py.fstr p)).
  intros c0 H0.
  assert (H1 : Py.contains "_" (if Py.startswith c0 "0" then drop_first c0 else c0) = false).
  { destruct (Py.startswith c0 "0"); [|exact H0].
    destruct c0 as [|c c0]; [reflexivity|].
    rewrite contains_underscore_cons in H0. apply orb_false_iff in H0. apply H0. }
  revert H1. generalize (if Py.startswith c0 "0" then drop_first c0 else c0).
  intros c1 H1.
  repeat match goal with
         | |- context [Py.startswith ?x ?y] => destruct (Py.startswith x y)
         | |- context [Nat.eqb ?x ?y] => destruct (Nat.eqb x y)
         end;
    cbn [negb orb]; try discriminate; intros [= <-];
    repeat rewrite contains_underscore_cons; exact H1.
Qed.

Lemma flag_mono_handle_call (r : request) : steps flag_mono (handle_call r).
Proof.
  apply (steps_handle_call flag_mono flag_mono_refl flag_mono_trans).
  - intros p a name idx utt.
    apply steps_record_response; try exact flag_mono_refl; try exact flag_mono_trans.
    + intros s Hg. apply flag_mono_sset; [discriminate|].
      unfold delivered_at. rewrite Hg. discriminate.
    + intros s e x Hg. apply flag_mono_sset.
      * intros Hok Hf. exact (Hok _ _ Hg Hf).
      * unfold delivered_at. rewrite Hg. auto.
  - intros p a. apply steps_mark_delivered; try exact flag_mono_refl; try exact flag_mono_trans.
    intros s e Hg. apply flag_mono_sset; [|reflexivity].
    intros _ _. apply session_key_underscore.
Qed.

Lemma flag_mono_process_session llm (P : string) (cd : list (string * string)) (key : string) :
  steps flag_mono (process_session llm P cd key).
Proof.
  apply steps_process_session; try exact flag_mono_refl; try exact flag_mono_trans.
  intros s e Hg Hf _. apply (flag_mono_trans _ (sset key (set_processing e) s)).
  - apply flag_mono_sset.
    + intros Hok Hf'. exact (Hok _ _ Hg Hf').
    + unfold delivered_at. rewrite Hg. auto.
  - apply flag_mono_sdel. intros _. unfold delivered_at.
    rewrite sget_sset, String.eqb_refl. exact Hf.
Qed.

Lemma flag_mono_call (gw : gateway) (now : Z) (data : option call_body) :
  steps flag_mono (call gw now data).
Proof.
  apply (steps_call flag_mono flag_mono_refl flag_mono_trans).
  intros gw' now' app d. apply steps_initiate_body; try exact flag_mono_refl; try exact flag_mono_trans.
  intros cn Hcn. pose proof (format_phone_number_no_underscore _ _ Hcn) as Hno. split.
  - intros s. apply flag_mono_sdel. intros Hok. unfold delivered_at.
    destruct (sget cn s) as [e|] eqn:Hg; [|reflexivity].
    destruct (delivered_flag e) eqn:Hf; [|reflexivity].
    rewrite (Hok _ _ Hg Hf) in Hno. discriminate.
  - intros s sid Hg. apply flag_mono_sset; [discriminate|].
    unfold delivered_at. rewrite Hg. discriminate.
Qed.

Lemma flag_mono_step llm (ev : event) (w : world) :
  flag_mono (active_calls w) (active_calls (step_event llm ev w)).
Proof.
  destruct ev as [gw now data|r|r]; simpl.
  - apply flag_mono_call.
  - apply flag_mono_handle_call.
  - apply (steps_call_status flag_mono flag_mono_refl flag_mono_trans llm).
    apply flag_mono_process_session.
Qed.

Lemma delivered_keys_ok_init : delivered_keys_ok (active_calls init_world).
Proof. intros k e H. discriminate. Qed.

Lemma flag_mono_run llm (evs : list event) (w : world) :
  flag_mono (active_calls w) (active_calls (run llm evs w)).
Proof.
  revert w. induction evs as [|ev evs IH]; intros w; simpl.
  - apply flag_mono_refl.
  - eapply flag_mono_trans; [apply flag_mono_step|apply IH].
Qed.

Lemma run_app llm (evs1 evs2 : list event) (w : world) :
  run llm (evs1 ++ evs2) w = run llm evs2 (run llm evs1 w).
Proof. revert w. induction evs1 as [|ev evs1 IH]; intros w; simpl; auto. Qed.

Lemma flips_bound llm (k : string) (evs : list event) (w : world) :
  delivered_keys_ok (active_calls w) ->
  (flips llm k evs w <= if delivered_at k (active_calls w) then 0 else 1)%nat.
Proof.
  revert w. induction evs as [|ev evs IH]; intros w Hok; simpl.
  - destruct (delivered_at k (active_calls w)); lia.
  - destruct (flag_mono_step llm ev w Hok) as [Hok' Hmono].
    specialize (IH _ Hok').
    destruct (delivered_at k (active_calls w)) eqn:D0.
    + rewrite (Hmono k D0) in IH |- *. simpl. lia.
    + destruct (delivered_at k (active_calls (step_event llm ev w))); simpl; lia.
Qed.

Lemma process_session_noop llm (P : string) (cd : list (string * string)) (key : string)
    (w : world) :
  sget key (active_calls w) = None \/ delivered_at key (active_calls w) = true ->
  process_session llm P cd key w = (w, Ret tt).
Proof.
  unfold delivered_at. intros H.
  unfold process_session, bind, get_store. cbv beta iota zeta.
  destruct (sget key (active_calls w)) as [e|].
  - destruct H as [H|H]; [discriminate|]. rewrite H. reflexivity.
  - reflexivity.
Qed.

Lemma process_keys_noop llm (P : string) (cd : list (string * string)) (ks : list string)
    (w : world) :
  (forall k, In k ks -> delivered_at k (active_calls w) = true) ->
  process_keys llm P cd ks w = (w, Ret tt).
Proof.
  induction ks as [|k ks IH]; intros H; simpl; [reflexivity|].
  unfold bind. rewrite process_session_noop by (right; apply H; left; reflexivity).
  apply IH. intros k' Hk'. apply H. right. exact Hk'.
Qed.

(** C1. Finalization is idempotent: from the initial world, along any sequence
    of events, the [verdict_delivered] flag of a key goes from false to true at
    most once and is never reset; finalizing a key whose session is absent or
    already delivered changes nothing (no decision-service call, no record), and
    so does a finalization all of whose matching sessions are delivered; two
    sequential finalizations persist at most one record per session key. *)
Theorem finalization_idempotent (llm : rubric -> list (Z * string) -> llm_reply) :
  (forall evs k, (flips llm k evs init_world <= 1)%nat) /\
  (forall evs1 evs2 k,
     delivered_at k (active_calls (run llm evs1 init_world)) = true ->
     delivered_at k (active_calls (run llm (evs1 ++ evs2) init_world)) = true) /\
  (forall P cd key w,
     sget key (active_calls w) = None \/ delivered_at key (active_calls w) = true ->
     process_session llm P cd key w = (w, Ret tt)) /\
  (forall P cd w,
     (forall k, In k (matching_keys P (active_calls w)) ->
                delivered_at k (active_calls w) = true) ->
     fst (process_incomplete_application llm P cd w) = w) /\
  (forall P cd1 cd2 w k,
     exists new,
       saved (fst (process_incomplete_application llm P cd2
                     (fst (process_incomplete_application llm P cd1 w)))) =
       (saved w ++ new)%list /\ (count_key k new <= 1)%nat).
Proof.
  split; [|split; [|split; [|split]]].
  - intros evs k. pose proof (flips_bound llm k evs init_world delivered_keys_ok_init) as H.
    destruct (delivered_at k _); lia.
  - intros evs1 evs2 k H. rewrite run_app.
    destruct (flag_mono_run llm evs1 init_world delivered_keys_ok_init) as [Hok1 _].
    exact (proj2 (flag_mono_run llm evs2 _ Hok1) k H).
  - apply process_session_noop.
  - intros P cd w H. unfold process_incomplete_application, try_except, bind, get_store.
    rewrite process_keys_noop by exact H. reflexivity.
  - intros P cd1 cd2 w k.
    destruct (finalization_records llm P cd1 w) as [n1 H1].
    destruct (finalization_records llm P cd2
                (fst (process_incomplete_application llm P cd1 w))) as [n2 H2].
    destruct (records_ok_trans llm _ _ _ _ _ H1 H2) as [Hs [_ Hk]].
    exists (n1 ++ n2)%list. split; [exact Hs|apply Hk].
Qed.

Lemma finalization_idempotent_witness :
  process_session llm_maybe asha_phone [] "+919999999999_loan" delivered_world =
    (delivered_world, Ret tt) /\
  fst (process_incomplete_application llm_maybe asha_phone [] delivered_world) =
    delivered_world.
Proof.
  split.
  - apply (proj1 (proj2 (proj2 (finalization_idempotent llm_maybe)))).
    right. vm_compute. reflexivity.
  - apply (proj1 (proj2 (proj2 (proj2 (finalization_idempotent llm_maybe))))).
    intros k Hk. vm_compute in Hk. destruct Hk as [<-|[]]. vm_compute. reflexivity.
Defined.

(** ** Finalization of one pending session *)














(** ** Call initiation *)

Lemma initiate_reaches_body (gw : gateway) (now : Z) (app : string) (data : call_body) :
  gw_health gw = HealthStatus 200 -> gw_credentials gw = true ->
  initiate_automated_call gw now app data =
    try_except (initiate_body gw now app data) (fun _ => ret (InitError 500)).
Proof.
  intros Hh Hc. unfold initiate_automated_call. rewrite Hh, Hc.
  assert (HB : Py.contains "ngrok" BASE_URL = true) by reflexivity.
  rewrite HB. reflexivity.
Qed.

(** C6. With the health check and the credentials passing, and a phone that
    formats to [cn] (the key of the initiator's entry is [cn] alone): with no
    entry for [cn] the call is placed, its SID returned and a fresh entry
    stored; with an entry younger than the 30-second window the answer is
    the conflict carrying that entry's SID and nothing changes, no call
    placed; with an older entry the old one is dropped, a new call placed and
    a fresh entry stored. *)
Theorem initiate_cooldown (gw : gateway) (now : Z) (app : string) (data : call_body)
    (cn : string) :
  gw_health gw = HealthStatus 200 -> gw_credentials gw = true ->
  format_phone_number (body_phone data) = Some cn ->
  let name := with_default "Customer" (body_name data) in
  let url := callback_url app name cn in
  let fresh sid := mkEntry (Some sid) (Some now) (Some name) (Some app) None None None None in
  (forall w sid,
     sget cn (active_calls w) = None -> gw_place gw url cn = Some sid ->
     initiate_automated_call gw now app data w =
       (mkWorld (sset cn (fresh sid) (active_calls w)) (saved w) (decision_calls w)
                (placed_calls w ++ [(url, cn)])%list, Ret (Started sid name cn url))) /\
  (forall w e t sid0,
     sget cn (active_calls w) = Some e -> timestamp e = Some t -> call_sid e = Some sid0 ->
     now - t < cooldown_us ->
     initiate_automated_call gw now app data w = (w, Ret (CallInProgress sid0))) /\
  (forall w e t sid,
     sget cn (active_calls w) = Some e -> timestamp e = Some t -> cooldown_us <= now - t ->
     gw_place gw url cn = Some sid ->
     initiate_automated_call gw now app data w =
       (mkWorld (sset cn (fresh sid) (sdel cn (active_calls w))) (saved w) (decision_calls w)
                (placed_calls w ++ [(url, cn)])%list, Ret (Started sid name cn url))).
Proof.
  intros Hh Hc Hf name url fresh. rewrite (initiate_reaches_body gw now app data Hh Hc).
  unfold try_except, initiate_body. rewrite Hf. fold name. fold url.
  split; [|split].
  - intros w sid Hg Hp. unfold bind, get_store, ret, put_store, place_call.
    cbn -[sget sset sdel callback_url]. rewrite Hg. cbn -[sget sset sdel callback_url]. fold url. rewrite Hp.
    reflexivity.
  - intros w e t sid0 Hg Ht Hs Hlt. unfold bind, get_store, ret, of_option.
    cbn -[sget sset sdel callback_url]. rewrite Hg, Ht. cbn -[sget sset sdel callback_url].
    apply Z.ltb_lt in Hlt. rewrite Hlt, Hs. destruct w; reflexivity.
  - intros w e t sid Hg Ht Hge Hp. unfold bind, get_store, ret, put_store, place_call, of_option.
    cbn -[sget sset sdel callback_url]. rewrite Hg, Ht. cbn -[sget sset sdel callback_url].
    apply Z.ltb_ge in Hge. rewrite Hge. cbn -[sget sset sdel callback_url]. fold url. rewrite Hp.
    reflexivity.
Qed.

Lemma initiate_cooldown_witness :
  (exists w', initiate_automated_call (working_gateway "CA1") 0 "loan" asha_body init_world =
                (w', Ret (Started "CA1" "Asha" asha_phone
                                  (callback_url "loan" "Asha" asha_phone)))) /\
  initiate_automated_call (working_gateway "CA2") 10000000 "loan" asha_body first_call_world =
    (first_call_world, Ret (CallInProgress "CA1")) /\
  (exists w', initiate_automated_call (working_gateway "CA2") 40000000 "loan" asha_body
                first_call_world =
                (w', Ret (Started "CA2" "Asha" asha_phone
                                  (callback_url "loan" "Asha" asha_phone)))).
Proof.
  split; [|split].
  - pose proof (initiate_cooldown (working_gateway "CA1") 0 "loan" asha_body asha_phone
                  eq_refl eq_refl eq_refl) as [H _].
    eexists. apply H; reflexivity.
  - pose proof (initiate_cooldown (working_gateway "CA2") 10000000 "loan" asha_body asha_phone
                  eq_refl eq_refl eq_refl) as [_ [H _]].
    apply (H first_call_world
             (mkEntry (Some "CA1") (Some 0) (Some "Asha") (Some "loan") None None None None)
             0 "CA1"); [vm_compute; reflexivity|reflexivity|reflexivity|unfold cooldown_us; lia].
  - pose proof (initiate_cooldown (working_gateway "CA2") 40000000 "loan" asha_body asha_phone
                  eq_refl eq_refl eq_refl) as [_ [_ H]].
    eexists.
    apply (H first_call_world
             (mkEntry (Some "CA1") (Some 0) (Some "Asha") (Some "loan") None None None None)
             0 "CA2"); [vm_compute; reflexivity|reflexivity|unfold cooldown_us; lia|reflexivity].
Defined.

(** ** The store never holds one key twice *)

Lemma keys_unique_refl (s : store) : keys_unique s s.
Proof. intros H. exact H. Qed.

Lemma keys_unique_trans (s1 s2 s3 : store) :
  keys_unique s1 s2 -> keys_unique s2 s3 -> keys_unique s1 s3.
Proof. intros H12 H23 H. auto. Qed.

Lemma keys_unique_sset (k : string) (v : entry) (s : store) : keys_unique s (sset k v s).
Proof. intros H. apply sset_nodup, H. Qed.

Lemma keys_unique_sdel (k : string) (s : store) : keys_unique s (sdel k s).
Proof. intros H. apply sdel_nodup, H. Qed.

Lemma keys_unique_step llm (ev : event) (w : world) :
  keys_unique (active_calls w) (active_calls (step_event llm ev w)).
Proof.
  destruct ev as [gw now data|r|r]; simpl.
  - apply (steps_call keys_unique keys_unique_refl keys_unique_trans).
    intros gw' now' app d.
    apply steps_initiate_body; try exact keys_unique_refl; try exact keys_unique_trans.
    intros cn _. split; [intros s; apply keys_unique_sdel|intros s sid _; apply keys_unique_sset].
  - apply (steps_handle_call keys_unique keys_unique_refl keys_unique_trans).
    + intros p a name idx utt.
      apply steps_record_response; try exact keys_unique_refl; try exact keys_unique_trans.
      * intros s _. apply keys_unique_sset.
      * intros s e x _. apply keys_unique_sset.
    + intros p a.
      apply steps_mark_delivered; try exact keys_unique_refl; try exact keys_unique_trans.
      intros s e _. apply keys_unique_sset.
  - apply (steps_call_status keys_unique keys_unique_refl keys_unique_trans llm).
    intros P cd key.
    apply steps_process_session; try exact keys_unique_refl; try exact keys_unique_trans.
    intros s e _ _ _. intros H. apply sdel_nodup, sset_nodup, H.
Qed.

Lemma keys_unique_run llm (evs : list event) (w : world) :
  keys_unique (active_calls w) (active_calls (run llm evs w)).
Proof.
  revert w. induction evs as [|ev evs IH]; intros w; simpl.
  - apply keys_unique_refl.
  - eapply keys_unique_trans; [apply keys_unique_step|apply IH].
Qed.

Lemma count_key_in (r : saved_record) (l : list saved_record) :
  In r l -> (1 <= count_key (rec_key r) l)%nat.
Proof.
  intros H. unfold count_key.
  assert (Hin : In r (List.filter (fun r' => String.eqb (rec_key r') (rec_key r)) l)).
  { apply filter_In. split; [exact H|apply String.eqb_refl]. }
  destruct (List.filter _ l); [destruct Hin|simpl; lia].
Qed.

(** C8 (code bug). A call-status finalization deletes every session it
    persists a record for (it marks it [processing], not [verdict_delivered],
    before the delete), so no persisted record's session key is left in the
    store. But the Controller's last-question path, which announces that the
    application is being evaluated, only flags the session
    [verdict_delivered] and never evaluates it: such a session is skipped by
    every later finalization and stays in the store, still flagged, whatever
    events follow. *)
Theorem finalization_removes_processed_sessions llm :
  (forall P cd w,
     exists new,
       saved (fst (process_incomplete_application llm P cd w)) = (saved w ++ new)%list /\
       forall r, In r new ->
         sget (rec_key r) (active_calls (fst (process_incomplete_application llm P cd w)))
           = None) /\
  (forall evs1 evs2 k,
     delivered_at k (active_calls (run llm evs1 init_world)) = true ->
     exists e, sget k (active_calls (run llm (evs1 ++ evs2) init_world)) = Some e /\
               delivered_flag e = true).
Proof.
  split.
  - intros P cd w. destruct (finalization_records llm P cd w) as [new [Hs [_ Hk]]].
    exists new. split; [exact Hs|].
    intros r Hr. destruct (Hk (rec_key r)) as [Hle [Hone _]].
    pose proof (count_key_in r new Hr). apply Hone. lia.
  - intros evs1 evs2 k H. rewrite run_app.
    destruct (flag_mono_run llm evs1 init_world delivered_keys_ok_init) as [Hok1 _].
    pose proof (proj2 (flag_mono_run llm evs2 _ Hok1) k H) as H2.
    unfold delivered_at in H2.
    destruct (sget k (active_calls (run llm evs2 (run llm evs1 init_world)))) as [e|];
      [exists e; split; [reflexivity|exact H2]|discriminate].
Qed.

Lemma finalization_removes_processed_sessions_witness :
  exists e,
    sget "+919999999999_loan"
      (active_calls (run llm_maybe
                       (last_answer_events ++
                        [EvCallStatus (status_update "completed" asha_phone)])
                       init_world)) = Some e /\
    delivered_flag e = true.
Proof.
  apply (proj2 (finalization_removes_processed_sessions llm_maybe)).
  vm_compute. reflexivity.
Defined.

(** C8: after the Controller's last-question outro and a completed
    call-status notification, the session is still in the store, flagged
    [verdict_delivered]; the decision service was never called and no record
    was persisted. *)
Lemma delivered_session_survives_finalization :
  let w := run llm_maybe
             (last_answer_events ++ [EvCallStatus (status_update "completed" asha_phone)])
             init_world in
  Dict.keys (active_calls w) = ["+919999999999_loan"] /\
  delivered_at "+919999999999_loan" (active_calls w) = true /\
  saved w = [] /\ decision_calls w = [].
Proof. vm_compute. repeat split. Qed.

(** C9 (as corrected). Along any run from the initial world, the store never
    holds two entries under one key. The keys differ between components,
    though: the initiator keys its entry by the formatted phone alone and the
    Controller by [phone_apptype], so one call has two live entries for the
    same phone number and application type. *)
Theorem store_keys_unique llm (evs : list event) :
  NoDup (Dict.keys (active_calls (run llm evs init_world))).
Proof. apply keys_unique_run. constructor. Qed.

(** C9 fails as stated: after [/call] and one recorded answer, the store
    holds two entries for the phone [+919999999999] and type [loan]. *)
Lemma two_entries_for_one_call :
  let s := active_calls (run llm_maybe call_then_answer_events init_world) in
  Dict.keys s = [asha_phone; "+919999999999_loan"] /\
  option_map application_type (sget asha_phone s) = Some (Some "loan") /\
  option_map responses (sget "+919999999999_loan" s) =
    Some (Some [(0, "I am 29 years old")]).
Proof. vm_compute. repeat split. Qed.

(** ** Phone-number formatting *)

Lemma str_length_app (a b : string) : String.length (a ++ b) = (String.length a + String.length b)%nat.
Proof. induction a as [|c a IH]; simpl; congruence. Qed.

Lemma str_forall_app (f : ascii -> bool) (a b : string) :
  str_forall f (a ++ b) = str_forall f a && str_forall f b.
Proof. induction a as [|c a IH]; simpl; [reflexivity|]. rewrite IH, andb_assoc. reflexivity. Qed.

Lemma filter_chars_id (keep : ascii -> bool) (s : string) :
  str_forall keep s = true -> Py.filter_chars keep s = s.
Proof.
  induction s as [|c s IH]; simpl; [reflexivity|].
  intros H. apply andb_prop in H as [Hc Hs]. rewrite Hc, IH by exact Hs. reflexivity.
Qed.

Lemma filter_chars_all (keep : ascii -> bool) (s : string) :
  str_forall keep (Py.filter_chars keep s) = true.
Proof.
  induction s as [|c s IH]; simpl; [reflexivity|].
  destruct (keep c) eqn:Hc; simpl; [rewrite Hc|]; auto.
Qed.

Lemma prefix_app_self (p t : string) : String.prefix p (p ++ t) = true.
Proof.
  induction p as [|c p IH]; simpl; [destruct t; reflexivity|].
  destruct (ascii_dec c c); [exact IH|contradiction].
Qed.

Lemma prefix_app_inv (p s : string) : String.prefix p s = true -> exists t, s = p ++ t.
Proof.
  revert s. induction p as [|c p IH]; intros s H; [exists s; reflexivity|].
  destruct s as [|c' s]; [discriminate|]. simpl in H.
  destruct (ascii_dec c c') as [<-|]; [|discriminate].
  destruct (IH s H) as [t ->]. exists t. reflexivity.
Qed.

Lemma digits_phone_chars (d : string) :
  str_forall Py.isdigit d = true -> str_forall phone_char d = true.
Proof.
  induction d as [|c d IH]; simpl; [reflexivity|].
  intros H. apply andb_prop in H as [Hc Hd]. rewrite (IH Hd). unfold phone_char. rewrite Hc. reflexivity.
Qed.

Lemma format_plus91 (t : string) :
  str_forall phone_char t = true -> String.length t = 10%nat ->
  format_phone_number (Some ("+91" ++ t)) = Some ("+91" ++ t).
Proof.
  intros Ht Hl. unfold format_phone_number. cbv zeta.
  change (Py.filter_chars (fun c => Py.isdigit c || Py.ascii_eqb c "+"%char))
    with (Py.filter_chars phone_char).
  rewrite (filter_chars_id phone_char (Py.fstr (Some ("+91" ++ t))))
    by (simpl; exact Ht).
  simpl. rewrite Hl. destruct t; reflexivity.
Qed.

Lemma format_digits_no_prefix (d : string) :
  str_forall Py.isdigit d = true -> String.length d = 10%nat ->
  Py.startswith d "0" = false -> Py.startswith d "91" = false ->
  format_phone_number (Some d) = Some ("+91" ++ d).
Proof.
  intros Hd Hl H0 H91. unfold format_phone_number. cbv zeta.
  change (Py.filter_chars (fun c => Py.isdigit c || Py.ascii_eqb c "+"%char))
    with (Py.filter_chars phone_char).
  simpl Py.fstr. simpl Py.truthy.
  assert (Hne : String.eqb d "" = false) by (destruct d; [discriminate|reflexivity]).
  rewrite Hne. simpl negb. cbv iota.
  rewrite (filter_chars_id phone_char d (digits_phone_chars d Hd)), H0, H91.
  assert (Hp : Py.startswith d "+" = false).
  { destruct d as [|c d]; [discriminate|]. simpl in Hd. apply andb_prop in Hd as [Hc _].
    unfold Py.startswith. cbn [String.prefix].
    destruct (ascii_dec "+" c) as [<-|]; [vm_compute in Hc; discriminate|reflexivity]. }
  rewrite Hp. simpl negb. cbv iota. rewrite H91.
  cbn [Py.startswith String.prefix String.length]. rewrite Hl. destruct d; reflexivity.
Qed.

Lemma str_forall_drop_first (f : ascii -> bool) (s : string) :
  str_forall f s = true -> str_forall f (drop_first s) = true.
Proof. destruct s as [|c s]; simpl; [auto|]. intros H. apply andb_prop in H. apply H. Qed.

Lemma format_phone_number_chars (p : option string) (cn : string) :
  format_phone_number p = Some cn ->
  str_forall phone_char cn = true /\ Py.startswith cn "+91" = true /\
  String.length cn = 13%nat.
Proof.
  unfold format_phone_number. destruct (Py.truthy p); [|discriminate]. simpl negb. cbv iota.
  cbv zeta.
  change (Py.filter_chars (fun c => Py.isdigit c || Py.ascii_eqb c "+"%char))
    with (Py.filter_chars phone_char).
  match goal with
  | |- (if negb (Py.startswith ?x "+91") || negb (Nat.eqb (String.length ?x2) 13)
        then None else Some ?y) = Some cn -> _ =>
      change x with y; change x2 with y; set (X := y)
  end.
  assert (HX : str_forall phone_char X = true).
  { unfold X. generalize (filter_chars_all phone_char (Py.fstr p)).
    generalize (Py.filter_chars phone_char (Py.fstr p)). intros c0 H0.
    assert (H1 : str_forall phone_char
                   (if Py.startswith c0 "0" then drop_first c0 else c0) = true)
      by (destruct (Py.startswith c0 "0"); auto using str_forall_drop_first).
    revert H1. generalize (if Py.startswith c0 "0" then drop_first c0 else c0).
    intros c1 H1.
    repeat match goal with
           | |- context [Py.startswith ?x ?y] => destruct (Py.startswith x y)
           end; exact H1. }
  clearbody X.
  destruct (Py.startswith X "+91") eqn:Hp; [|discriminate].
  destruct (Nat.eqb_spec (String.length X) 13) as [Hl|]; [|discriminate].
  intros [= <-]. repeat split; assumption.
Qed.

Lemma format_91_digits (d : string) :
  str_forall Py.isdigit d = true -> String.length d = 10%nat ->
  format_phone_number (Some ("91" ++ d)) = Some ("+91" ++ d).
Proof.
  intros Hd Hl. unfold format_phone_number. cbv zeta.
  change (Py.filter_chars (fun c => Py.isdigit c || Py.ascii_eqb c "+"%char))
    with (Py.filter_chars phone_char).
  rewrite (filter_chars_id phone_char (Py.fstr (Some ("91" ++ d))))
    by (simpl; apply digits_phone_chars, Hd).
  assert (Hs : Py.startswith d "" = true) by (destruct d; reflexivity).
  simpl. rewrite Hs. simpl. rewrite Hl, Hs. reflexivity.
Qed.

Lemma digits_not_plus (d : string) :
  str_forall Py.isdigit d = true -> Py.startswith d "+" = false.
Proof.
  destruct d as [|c d]; [reflexivity|]. intros Hd. cbn [str_forall] in Hd.
  apply andb_prop in Hd as [Hc _].
  unfold Py.startswith. cbn [String.prefix].
  destruct (ascii_dec "+" c) as [<-|]; [vm_compute in Hc; discriminate|reflexivity].
Qed.

Lemma format_0_digits (d : string) :
  str_forall Py.isdigit d = true -> String.length d = 10%nat ->
  Py.startswith d "0" = false -> Py.startswith d "91" = false ->
  format_phone_number (Some ("0" ++ d)) = Some ("+91" ++ d).
Proof.
  intros Hd Hl H0 H91. unfold format_phone_number. cbv zeta.
  change (Py.filter_chars (fun c => Py.isdigit c || Py.ascii_eqb c "+"%char))
    with (Py.filter_chars phone_char).
  rewrite (filter_chars_id phone_char (Py.fstr (Some ("0" ++ d))))
    by (simpl; apply digits_phone_chars, Hd).
  assert (Hs : Py.startswith d "" = true) by (destruct d; reflexivity).
  pose proof (digits_not_plus d Hd) as Hp.
  simpl. rewrite ?Hs. rewrite H91. cbv iota. rewrite Hp. simpl. rewrite ?H91. simpl. rewrite Hl, Hs. reflexivity.
Qed.

Lemma format_91_mobile (d : string) :
  str_forall Py.isdigit d = true -> String.length d = 10%nat -> Py.startswith d "91" = true ->
  format_phone_number (Some d) = None.
Proof.
  intros Hd Hl H91. destruct (prefix_app_inv "91" d H91) as [t ->].
  unfold format_phone_number. cbv zeta.
  change (Py.filter_chars (fun c => Py.isdigit c || Py.ascii_eqb c "+"%char))
    with (Py.filter_chars phone_char).
  rewrite (filter_chars_id phone_char (Py.fstr (Some ("91" ++ t))))
    by (simpl; apply digits_phone_chars, Hd).
  cbn [String.length append] in Hl.
  injection Hl as Hl.
  assert (Hs : Py.startswith t "" = true) by (destruct t; reflexivity).
  simpl. rewrite Hs. simpl. rewrite Hl, Hs. reflexivity.
Qed.

(** X: every number [format_phone_number] accepts is [+91] followed by ten
    characters, all of them digits or [+]. *)
Theorem format_phone_number_shape (p : option string) (cn : string) :
  format_phone_number p = Some cn ->
  Py.startswith cn "+91" = true /\ String.length cn = 13%nat /\
  str_forall phone_char cn = true.
Proof.
  intros H. destruct (format_phone_number_chars p cn H) as [Hc [Hp Hl]]. auto.
Qed.

Lemma format_phone_number_shape_witness :
  format_phone_number (Some "098765 43210") = Some "+919876543210" /\
  Py.startswith "+919876543210" "+91" = true /\ String.length "+919876543210" = 13%nat /\
  str_forall phone_char "+919876543210" = true.
Proof.
  split; [reflexivity|]. apply (format_phone_number_shape (Some "098765 43210")).
  reflexivity.
Defined.

Lemma format_phone_number_twice (p : option string) (cn : string) :
  format_phone_number p = Some cn -> format_phone_number (Some cn) = Some cn.
Proof.
  intros H. destruct (format_phone_number_chars p cn H) as [Hc [Hp Hl]].
  destruct (prefix_app_inv "+91" cn Hp) as [t ->].
  rewrite str_forall_app in Hc. apply andb_prop in Hc as [_ Ht].
  cbn [String.length append] in Hl. injection Hl as Hl.
  apply format_plus91; assumption.
Qed.

(** X: formatting is idempotent: a formatted number formats to itself. *)
Theorem format_phone_number_idempotent (p : option string) (cn : string) :
  format_phone_number p = Some cn -> format_phone_number (Some cn) = Some cn.
Proof. apply format_phone_number_twice. Qed.

Lemma format_phone_number_idempotent_witness :
  format_phone_number (Some "+919876543210") = Some "+919876543210".
Proof. apply (format_phone_number_idempotent (Some "(0)98765-43210")). reflexivity. Defined.

(** X: for a ten-digit number [d], the forms [+91d] and [91d] format to
    [+91d]; so do [d] and [0d] when [d] starts neither with [0] nor with
    [91]. *)
Theorem format_phone_number_accepts (d : string) :
  str_forall Py.isdigit d = true -> String.length d = 10%nat ->
  format_phone_number (Some ("+91" ++ d)) = Some ("+91" ++ d) /\
  format_phone_number (Some ("91" ++ d)) = Some ("+91" ++ d) /\
  (Py.startswith d "0" = false -> Py.startswith d "91" = false ->
   format_phone_number (Some d) = Some ("+91" ++ d) /\
   format_phone_number (Some ("0" ++ d)) = Some ("+91" ++ d)).
Proof.
  intros Hd Hl. split; [apply format_plus91; [apply digits_phone_chars|]; assumption|].
  split; [apply format_91_digits; assumption|].
  intros H0 H91. split; [apply format_digits_no_prefix|apply format_0_digits]; assumption.
Qed.

Lemma format_phone_number_accepts_witness :
  format_phone_number (Some "9876543210") = Some "+919876543210" /\
  format_phone_number (Some "09876543210") = Some "+919876543210".
Proof.
  apply (format_phone_number_accepts "9876543210"); reflexivity.
Defined.

(** X: a ten-digit number that itself begins with [91] is rejected: the
    code reads [91] as the country code and the result is too short. *)
Theorem format_phone_number_rejects_91_mobile (d : string) :
  str_forall Py.isdigit d = true -> String.length d = 10%nat -> Py.startswith d "91" = true ->
  format_phone_number (Some d) = None.
Proof. apply format_91_mobile. Qed.

Lemma format_phone_number_rejects_91_mobile_witness :
  format_phone_number (Some "9123456789") = None.
Proof. apply format_phone_number_rejects_91_mobile; reflexivity. Defined.

(** ** The [/call] route and the initiator's guards *)

Lemma format_phone_number_truthy (p : option string) (cn : string) :
  format_phone_number p = Some cn -> Py.truthy p = true.
Proof. unfold format_phone_number. destruct (Py.truthy p); [reflexivity|discriminate]. Qed.

(** X: [/call] answers 400 and changes nothing (no call placed, store
    untouched) when its JSON body's [type] is not [loan] or [cc], or its
    phone number is missing or does not format. *)
Theorem call_rejects_invalid_body (gw : gateway) (now : Z) (d : call_body) (w : world) :
  in_list (body_type d) ["loan"; "cc"] = false \/ format_phone_number (body_phone d) = None ->
  call gw now (Some d) w = (w, Ret (InitError 400)).
Proof.
  intros [Ht|Hf]; unfold call.
  - rewrite Ht, orb_true_r. reflexivity.
  - destruct (negb (Py.truthy (body_type d)) || negb (in_list (body_type d) ["loan"; "cc"]));
      [reflexivity|].
    destruct (negb (Py.truthy (body_phone d))); [reflexivity|]. rewrite Hf. reflexivity.
Qed.

Lemma call_rejects_invalid_body_witness :
  call (working_gateway "CA1") 0 (Some (mkBody (Some "mortgage") (Some asha_phone) None))
       init_world = (init_world, Ret (InitError 400)) /\
  call (working_gateway "CA1") 0 (Some (mkBody (Some "loan") (Some "12345") None))
       init_world = (init_world, Ret (InitError 400)).
Proof.
  split.
  - apply call_rejects_invalid_body. left. reflexivity.
  - apply call_rejects_invalid_body. right. reflexivity.
Defined.

(** X: a [cc] request is initiated as [credit_card]: with the guards
    passing and no entry for the formatted number, the call placed points
    the webhook at [application_type=credit_card] and the stored entry
    records [credit_card]. *)
Theorem call_cc_becomes_credit_card (gw : gateway) (now : Z) (d : call_body) (cn sid : string)
    (w : world) :
  gw_health gw = HealthStatus 200 -> gw_credentials gw = true ->
  body_type d = Some "cc" -> format_phone_number (body_phone d) = Some cn ->
  sget cn (active_calls w) = None ->
  let name := with_default "Customer" (body_name d) in
  gw_place gw (callback_url "credit_card" name cn) cn = Some sid ->
  call gw now (Some d) w =
    (mkWorld (sset cn (mkEntry (Some sid) (Some now) (Some name) (Some "credit_card")
                               None None None None) (active_calls w))
             (saved w) (decision_calls w)
             (placed_calls w ++ [(callback_url "credit_card" name cn, cn)])%list,
     Ret (Started sid name cn (callback_url "credit_card" name cn))).
Proof.
  intros Hh Hc Ht Hf Hg name Hp. unfold call. rewrite Ht.
  cbn [Py.truthy in_list existsb String.eqb negb orb].
  rewrite (format_phone_number_truthy _ _ Hf). cbn [negb]. rewrite Hf.
  cbn [opt_eqb]. change (String.eqb "cc" "cc") with true. cbv iota.
  rewrite (initiate_reaches_body gw now "credit_card" _ Hh Hc).
  unfold try_except, initiate_body. cbn [body_phone body_name].
  rewrite (format_phone_number_twice _ _ Hf). fold name.
  unfold bind, get_store, ret, put_store, place_call.
  cbn -[sget sset sdel callback_url]. rewrite Hg. cbn -[sget sset sdel callback_url].
  rewrite Hp. reflexivity.
Qed.

Lemma call_cc_becomes_credit_card_witness :
  exists w', call (working_gateway "CA7") 0 (Some (mkBody (Some "cc") (Some "98765 43210")
                                                         (Some "Ravi"))) init_world =
    (w', Ret (Started "CA7" "Ravi" "+919876543210"
                      (callback_url "credit_card" "Ravi" "+919876543210"))).
Proof.
  eexists. apply call_cc_becomes_credit_card; reflexivity.
Defined.

(** X: the initiator places no call and changes nothing when the health
    check of the public URL does not answer 200 (503), or when a gateway
    credential is missing (400). *)
Theorem initiate_guards (gw : gateway) (now : Z) (app : string) (data : call_body) (w : world) :
  (gw_health gw <> HealthStatus 200 ->
   initiate_automated_call gw now app data w = (w, Ret (InitError 503))) /\
  (gw_health gw = HealthStatus 200 -> gw_credentials gw = false ->
   initiate_automated_call gw now app data w = (w, Ret (InitError 400))).
Proof.
  assert (HB : Py.contains "ngrok" BASE_URL = true) by reflexivity.
  split.
  - intros Hh. unfold initiate_automated_call. rewrite HB.
    destruct (gw_health gw) as [code| |]; cbn [andb negb]; [|reflexivity|reflexivity].
    destruct (Z.eqb_spec code 200) as [->|]; [contradiction|reflexivity].
  - intros Hh Hc. unfold initiate_automated_call. rewrite HB, Hh, Hc. reflexivity.
Qed.

Lemma initiate_guards_witness :
  initiate_automated_call (mkGateway HealthConnectionError true (fun _ _ => Some "CA1"))
    0 "loan" asha_body init_world = (init_world, Ret (InitError 503)) /\
  initiate_automated_call (mkGateway (HealthStatus 200) false (fun _ _ => Some "CA1"))
    0 "loan" asha_body init_world = (init_world, Ret (InitError 400)).
Proof.
  split.
  - apply initiate_guards. discriminate.
  - apply initiate_guards; reflexivity.
Defined.

(** X: when the gateway refuses the call the answer is 500 and no entry is
    stored for the number; an expired entry found before is gone all the
    same. *)
Theorem initiate_failed_call_stores_nothing (gw : gateway) (now : Z) (app : string)
    (data : call_body) (cn : string) (w : world) :
  gw_health gw = HealthStatus 200 -> gw_credentials gw = true ->
  format_phone_number (body_phone data) = Some cn ->
  let url := callback_url app (with_default "Customer" (body_name data)) cn in
  gw_place gw url cn = None ->
  (sget cn (active_calls w) = None ->
   initiate_automated_call gw now app data w =
     (mkWorld (active_calls w) (saved w) (decision_calls w)
              (placed_calls w ++ [(url, cn)])%list, Ret (InitError 500))) /\
  (forall e t, sget cn (active_calls w) = Some e -> timestamp e = Some t ->
   cooldown_us <= now - t ->
   initiate_automated_call gw now app data w =
     (mkWorld (sdel cn (active_calls w)) (saved w) (decision_calls w)
              (placed_calls w ++ [(url, cn)])%list, Ret (InitError 500))).
Proof.
  intros Hh Hc Hf url Hp. rewrite (initiate_reaches_body gw now app data Hh Hc).
  unfold try_except, initiate_body. rewrite Hf. fold url.
  split.
  - intros Hg. unfold bind, get_store, ret, put_store, place_call.
    cbn -[sget sset sdel callback_url]. rewrite Hg. cbn -[sget sset sdel callback_url].
    fold url. rewrite Hp. reflexivity.
  - intros e t Hg Ht Hge. unfold bind, get_store, ret, put_store, place_call, of_option.
    cbn -[sget sset sdel callback_url]. rewrite Hg, Ht. cbn -[sget sset sdel callback_url].
    apply Z.ltb_ge in Hge. rewrite Hge. cbn -[sget sset sdel callback_url]. fold url.
    rewrite Hp. reflexivity.
Qed.

Lemma initiate_failed_call_stores_nothing_witness :
  fst (initiate_automated_call (mkGateway (HealthStatus 200) true (fun _ _ => None))
         40000000 "loan" asha_body first_call_world) =
    mkWorld [] [] []
      (placed_calls first_call_world ++
       [(callback_url "loan" "Asha" asha_phone, asha_phone)])%list.
Proof.
  pose proof (initiate_failed_call_stores_nothing
                (mkGateway (HealthStatus 200) true (fun _ _ => None)) 40000000 "loan"
                asha_body asha_phone first_call_world eq_refl eq_refl eq_refl eq_refl)
    as [_ H].
  rewrite (H (mkEntry (Some "CA1") (Some 0) (Some "Asha") (Some "loan") None None None None) 0);
    [reflexivity|vm_compute; reflexivity|reflexivity|unfold cooldown_us; lia].
Defined.

(** ** The call flow controller, one request at a time *)

Ltac steps_split_with refl trans :=
  repeat match goal with
  | |- steps _ (bind _ _) => apply (steps_bind _ trans); [|intros ?]
  | |- steps _ (try_except _ _) => apply (steps_try _ trans); [|intros ?]
  | |- steps _ (if ?b then _ else _) => destruct b
  | |- steps _ (match ?x with _ => _ end) => destruct x
  end;
  try first [ apply (steps_ret _ refl) | apply (steps_raise _ refl)
            | apply (steps_of_option _ refl) | apply (steps_quote_opt _ refl)
            | apply (steps_py_index _ refl) ].

Section HandleCallAt.
Variable Rs : store -> store -> Prop.
Hypothesis Rs_refl : forall s, Rs s s.
Hypothesis Rs_trans : forall s1 s2 s3, Rs s1 s2 -> Rs s2 s3 -> Rs s1 s3.
Variable r : request.
Hypothesis record_ok : forall name idx utt,
  steps Rs (record_response (session_key (req_phone_number r) (req_application_type r)) name idx utt).
Hypothesis mark_ok :
  steps Rs (mark_delivered (session_key (req_phone_number r) (req_application_type r))).

Lemma steps_handle_call_at : steps Rs (handle_call r).
Proof.
  unfold handle_call, handle_call_body. cbv zeta.
  steps_split_with Rs_refl Rs_trans; auto.
Qed.
End HandleCallAt.

Lemma try_bind_run {A B} (m : M A) (f : A -> M B) (h : exn -> M B) (w w1 : world) (a : A) :
  m w = (w1, Ret a) -> try_except (bind m f) h w = try_except (f a) h w1.
Proof. intros H. unfold try_except, bind. rewrite H. reflexivity. Qed.

Lemma try_bind_raise {A B} (m : M A) (f : A -> M B) (h : exn -> M B) (w w1 : world) (e : exn) :
  m w = (w1, Raise e) -> try_except (bind m f) h w = h e w1.
Proof. intros H. unfold try_except, bind. rewrite H. reflexivity. Qed.

Lemma get_replace_Z (i j : Z) (u : string) (rs : list (Z * string)) :
  Dict.get Z.eqb j (Dict.replace Z.eqb i u rs)
  = if Z.eqb j i then option_map (fun _ => u) (Dict.get Z.eqb j rs) else Dict.get Z.eqb j rs.
Proof.
  induction rs as [|[k0 v0] rs IH]; simpl.
  - destruct (Z.eqb j i); reflexivity.
  - destruct (Z.eqb_spec i k0) as [->|Hne]; simpl.
    + destruct (Z.eqb_spec j k0); simpl; [reflexivity|exact IH].
    + destruct (Z.eqb_spec j k0) as [->|Hne2].
      * destruct (Z.eqb_spec k0 i); [congruence|reflexivity].
      * exact IH.
Qed.

Lemma get_app_Z (j : Z) (d1 d2 : list (Z * string)) :
  Dict.get Z.eqb j (d1 ++ d2)%list
  = match Dict.get Z.eqb j d1 with Some v => Some v | None => Dict.get Z.eqb j d2 end.
Proof.
  induction d1 as [|[k0 v0] d1 IH]; simpl; [reflexivity|].
  destruct (Z.eqb j k0); [reflexivity|exact IH].
Qed.

Lemma get_set_Z (i j : Z) (u : string) (rs : list (Z * string)) :
  Dict.get Z.eqb j (Dict.set Z.eqb i u rs) = if Z.eqb j i then Some u else Dict.get Z.eqb j rs.
Proof.
  unfold Dict.set, Dict.mem.
  destruct (Dict.get Z.eqb i rs) eqn:Hm.
  - rewrite get_replace_Z. destruct (Z.eqb_spec j i) as [->|]; [rewrite Hm; reflexivity|reflexivity].
  - rewrite get_app_Z. destruct (Z.eqb_spec j i) as [->|Hne].
    + rewrite Hm. simpl. rewrite Z.eqb_refl. reflexivity.
    + destruct (Dict.get Z.eqb j rs); [reflexivity|]. simpl.
      destruct (Z.eqb_spec j i); [congruence|reflexivity].
Qed.

Lemma record_response_run (key name : string) (idx : Z) (u : string) (w : world) :
  (forall e, sget key (active_calls w) = Some e -> responses e <> None) ->
  exists e1 w1,
    record_response key name idx u w = (w1, Ret tt) /\
    sget key (active_calls w1) = Some e1 /\
    responses e1 = Some (Dict.set Z.eqb idx u (session_responses key (active_calls w))) /\
    verdict_delivered e1 = match sget key (active_calls w) with
                           | Some e => verdict_delivered e | None => None end /\
    (forall k, k <> key -> sget k (active_calls w1) = sget k (active_calls w)) /\
    saved w1 = saved w /\ decision_calls w1 = decision_calls w /\ placed_calls w1 = placed_calls w.
Proof.
  intros Hok.
  unfold record_response, bind, get_store, put_store, of_option, ret, raise, session_responses; cbn.
  rewrite smem_sget. destruct (sget key (active_calls w)) as [e0|] eqn:Hg.
  - rewrite Hg. destruct (responses e0) as [rs|] eqn:Hr; [|exfalso; exact (Hok e0 eq_refl Hr)].
    cbn. eexists _, _. split; [reflexivity|]. cbn [active_calls saved decision_calls placed_calls].
    rewrite sget_sset, String.eqb_refl. split; [reflexivity|].
    split; [reflexivity|]. split; [reflexivity|].
    split; [|repeat split].
    intros k Hk. rewrite sget_sset. destruct (String.eqb_spec k key); [contradiction|reflexivity].
  - rewrite sget_sset, String.eqb_refl. cbn. eexists _, _. split; [reflexivity|]. cbn [active_calls saved decision_calls placed_calls].
    rewrite sget_sset, String.eqb_refl. split; [reflexivity|].
    split; [reflexivity|]. split; [reflexivity|].
    split; [|repeat split].
    intros k Hk. rewrite !sget_sset. destruct (String.eqb_spec k key); [contradiction|reflexivity].
Qed.

Lemma keeps_logs_ret {A} (a : A) : keeps_logs (ret a).
Proof. intros w. repeat split. Qed.

Lemma keeps_logs_raise {A} (e : exn) : keeps_logs (@raise A e).
Proof. intros w. repeat split. Qed.

Lemma keeps_logs_get_store : keeps_logs get_store.
Proof. intros w. repeat split. Qed.

Lemma keeps_logs_put_store (s : store) : keeps_logs (put_store s).
Proof. intros w. repeat split. Qed.

Lemma keeps_logs_of_option {A} (e : exn) (o : option A) : keeps_logs (of_option e o).
Proof. destruct o; [apply keeps_logs_ret|apply keeps_logs_raise]. Qed.

Lemma keeps_logs_quote_opt (o : option string) : keeps_logs (quote_opt o).
Proof. destruct o; [apply keeps_logs_ret|apply keeps_logs_raise]. Qed.

Lemma keeps_logs_py_index (l : list string) (i : Z) : keeps_logs (py_index l i).
Proof.
  unfold py_index. destruct (_ && _); [apply keeps_logs_ret|].
  destruct (_ && _); [apply keeps_logs_ret|apply keeps_logs_raise].
Qed.

Lemma keeps_logs_bind {A B} (m : M A) (f : A -> M B) :
  keeps_logs m -> (forall a, keeps_logs (f a)) -> keeps_logs (bind m f).
Proof.
  intros Hm Hf w. unfold bind. specialize (Hm w).
  destruct (m w) as [w1 [a|e]]; simpl in *; [|exact Hm].
  destruct (Hf a w1) as (H1 & H2 & H3). destruct Hm as (H4 & H5 & H6).
  repeat split; congruence.
Qed.

Lemma keeps_logs_try {A} (m : M A) (h : exn -> M A) :
  keeps_logs m -> (forall e, keeps_logs (h e)) -> keeps_logs (try_except m h).
Proof.
  intros Hm Hh w. unfold try_except. specialize (Hm w).
  destruct (m w) as [w1 [a|e]]; simpl in *; [exact Hm|].
  destruct (Hh e w1) as (H1 & H2 & H3). destruct Hm as (H4 & H5 & H6).
  repeat split; congruence.
Qed.

Create HintDb logs.
#[local] Hint Resolve keeps_logs_ret keeps_logs_raise keeps_logs_get_store
  keeps_logs_put_store keeps_logs_of_option keeps_logs_quote_opt keeps_logs_py_index : logs.

Ltac logs_split :=
  repeat match goal with
  | |- keeps_logs (bind _ _) => apply keeps_logs_bind; [|intros ?]
  | |- keeps_logs (try_except _ _) => apply keeps_logs_try; [|intros ?]
  | |- keeps_logs (if ?b then _ else _) => destruct b
  | |- keeps_logs (match ?x with _ => _ end) => destruct x
  end; auto with logs.

Lemma keeps_logs_record_response (key name : string) (idx : Z) (utt : string) :
  keeps_logs (record_response key name idx utt).
Proof. unfold record_response. cbv zeta. logs_split. Qed.

Lemma keeps_logs_mark_delivered (key : string) : keeps_logs (mark_delivered key).
Proof. unfold mark_delivered. logs_split. Qed.

#[local] Hint Resolve keeps_logs_record_response keeps_logs_mark_delivered : logs.

Lemma keeps_logs_handle_call_body (r : request) : keeps_logs (handle_call_body r).
Proof. unfold handle_call_body. cbv zeta. logs_split. Qed.

Lemma sget_sset_other (k k' : string) (v : entry) (s : store) :
  k <> k' -> sget k (sset k' v s) = sget k s.
Proof. intros H. rewrite sget_sset. destruct (String.eqb_spec k k'); [contradiction|reflexivity]. Qed.

Ltac open_question_step Hstep Hn0 Hn1 Hlt :=
  unfold handle_call, handle_call_body; cbv zeta; rewrite Hstep;
  erewrite try_bind_run by reflexivity; cbv beta;
  rewrite Hn0, Hn1, Hlt; cbv iota.

(** [handle_call] changes no session but the one of its request: for any
    key [k] other than [f"{phone_number}_{application_type}"], the entry
    under [k] is the same after the request as before. *)
Theorem handle_call_only_touches_its_session (r : request) (w : world) (k : string) :
  k <> session_key (req_phone_number r) (req_application_type r) ->
  sget k (active_calls (fst (handle_call r w))) = sget k (active_calls w).
Proof.
  intros Hk.
  refine (steps_handle_call_at (fun s s' => sget k s' = sget k s) _ _ r _ _ w).
  - reflexivity.
  - intros s1 s2 s3 H1 H2. congruence.
  - intros name idx utt. apply steps_record_response.
    + reflexivity.
    + intros s1 s2 s3 H1 H2. congruence.
    + intros s _. apply sget_sset_other, Hk.
    + intros s e x _. apply sget_sset_other, Hk.
  - apply steps_mark_delivered; [reflexivity|].
    intros s e _. apply sget_sset_other, Hk.
Qed.

Lemma handle_call_only_touches_its_session_witness :
  "other_loan" <> session_key (Some "+919876543210") (Some "loan") /\
  sget "other_loan"
    (active_calls (fst (handle_call
       (mkRequest [("application_type", "loan"); ("name", "Ravi"); ("step", "2");
                   ("phone_number", "+919876543210")] [("SpeechResult", "yes")])
       (mkWorld [("other_loan", empty_entry)] [] [] []))))
  = sget "other_loan" [("other_loan", empty_entry)].
Proof.
  split; [intros H; vm_compute in H; discriminate H|].
  apply (handle_call_only_touches_its_session
           (mkRequest [("application_type", "loan"); ("name", "Ravi"); ("step", "2");
                       ("phone_number", "+919876543210")] [("SpeechResult", "yes")])
           (mkWorld [("other_loan", empty_entry)] [] [] []) "other_loan").
  intros H; vm_compute in H; discriminate H.
Defined.

(** [handle_call] never touches the saved results, never calls the decision
    service and never places a call. *)
Theorem handle_call_keeps_logs (r : request) (w : world) :
  saved (fst (handle_call r w)) = saved w /\
  decision_calls (fst (handle_call r w)) = decision_calls w /\
  placed_calls (fst (handle_call r w)) = placed_calls w.
Proof.
  apply keeps_logs_try; [apply keeps_logs_handle_call_body|intros _; apply keeps_logs_ret].
Qed.

(** At a question step [2 <= step < len(questions) + 2] with a non-empty
    [SpeechResult], the session's [responses] afterwards map [step - 2] to
    that utterance and every other index to what it held before (nothing for
    a new session): a repeated step overwrites the earlier answer. The
    precondition excludes a stored entry without [responses], on which the
    code raises [KeyError]. *)
Theorem handle_call_records_answer (r : request) (w : world) (n : Z) :
  step_param r = Some n ->
  2 <= n < Z.of_nat (length (questions_for (req_application_type r))) + 2 ->
  req_previous_response r <> "" ->
  (forall e, sget (session_key (req_phone_number r) (req_application_type r)) (active_calls w)
             = Some e -> responses e <> None) ->
  exists e rs,
    sget (session_key (req_phone_number r) (req_application_type r))
         (active_calls (fst (handle_call r w))) = Some e /\
    responses e = Some rs /\
    Dict.get Z.eqb (n - 2) rs = Some (req_previous_response r) /\
    (forall j, j <> n - 2 ->
       Dict.get Z.eqb j rs
       = Dict.get Z.eqb j (session_responses (session_key (req_phone_number r)
                                                          (req_application_type r))
                                             (active_calls w))).
Proof.
  intros Hstep [Hlo Hhi] Hu Hok.
  destruct (record_response_run (session_key (req_phone_number r) (req_application_type r))
              (req_customer_name r) (n - 2) (req_previous_response r) w Hok)
    as (e1 & w1 & Hrec & Hg1 & Hr1 & _).
  pose (R := fun s s' : store =>
    forall e, sget (session_key (req_phone_number r) (req_application_type r)) s = Some e ->
    exists e', sget (session_key (req_phone_number r) (req_application_type r)) s' = Some e'
               /\ responses e' = responses e).
  assert (Rrefl : forall s, R s s) by (intros s e H; exists e; auto).
  assert (Rtrans : forall s1 s2 s3, R s1 s2 -> R s2 s3 -> R s1 s3).
  { intros s1 s2 s3 H1 H2 e H. destruct (H1 e H) as (e' & H' & Hr').
    destruct (H2 e' H') as (e'' & H'' & Hr''). exists e''. split; congruence. }
  assert (Htr : Py.truthy (Some (req_previous_response r)) = true).
  { unfold Py.truthy. apply negb_true_iff, String.eqb_neq. exact Hu. }
  assert (Hn0 : (n =? 0) = false) by (apply Z.eqb_neq; lia).
  assert (Hn1 : (n =? 1) = false) by (apply Z.eqb_neq; lia).
  assert (Hlt : (n <? Z.of_nat (length (questions_for (req_application_type r))) + 2) = true)
    by (apply Z.ltb_lt; lia).
  assert (HR : R (active_calls w1) (active_calls (fst (handle_call r w)))).
  { open_question_step Hstep Hn0 Hn1 Hlt. rewrite Htr. cbv iota.
    erewrite try_bind_run by exact Hrec. cbv beta.
    refine (steps_try R Rtrans _ _ _ _ w1); steps_split_with Rrefl Rtrans.
    apply steps_mark_delivered; [exact Rrefl|].
    intros s e Hg e0 He0. rewrite Hg in He0. injection He0 as <-.
    exists (set_delivered e). rewrite sget_sset, String.eqb_refl. split; reflexivity. }
  destruct (HR e1 Hg1) as (e' & Hg' & Hr').
  exists e', (Dict.set Z.eqb (n - 2) (req_previous_response r)
                (session_responses (session_key (req_phone_number r) (req_application_type r))
                                   (active_calls w))).
  split; [exact Hg'|]. split; [congruence|].
  split; [rewrite get_set_Z, Z.eqb_refl; reflexivity|].
  intros j Hj. rewrite get_set_Z. destruct (Z.eqb_spec j (n - 2)); [contradiction|reflexivity].
Qed.

Lemma handle_call_records_answer_witness :
  exists e rs,
    sget (session_key (Some asha_phone) (Some "loan"))
         (active_calls (fst (handle_call (webhook "loan" "2" asha_phone "I am 30 years old")
                                         one_answer_world))) = Some e /\
    responses e = Some rs /\
    Dict.get Z.eqb (2 - 2) rs = Some "I am 30 years old" /\
    (forall j, j <> 2 - 2 ->
       Dict.get Z.eqb j rs
       = Dict.get Z.eqb j (session_responses (session_key (Some asha_phone) (Some "loan"))
                                             (active_calls one_answer_world))).
Proof.
  apply (handle_call_records_answer (webhook "loan" "2" asha_phone "I am 30 years old")
           one_answer_world 2).
  - reflexivity.
  - vm_compute. split; [discriminate|reflexivity].
  - intros H. vm_compute in H. discriminate H.
  - intros e He. vm_compute in He. injection He as <-. discriminate.
Defined.

(** At a question step, when the last question has been answered
    ([step = len(questions) + 1]) or the request reports the call as ending
    ([CallStatus] or [DialCallStatus] terminal, or ["Hangup"] in [Digits]),
    the document is the outro followed by a hangup, and the session is
    flagged [verdict_delivered] exactly when it exists by then: it was stored
    before, or this request's non-empty transcript created it. *)
Theorem handle_call_ending_plays_outro (r : request) (w : world) (n : Z) :
  step_param r = Some n ->
  2 <= n < Z.of_nat (length (questions_for (req_application_type r))) + 2 ->
  (n = Z.of_nat (length (questions_for (req_application_type r))) + 1
   \/ in_list (values_get "CallStatus" r) terminal_statuses = true
   \/ Py.contains "Hangup" (with_default "" (values_get "Digits" r)) = true
   \/ in_list (values_get "DialCallStatus" r) terminal_statuses = true) ->
  (forall e, sget (session_key (req_phone_number r) (req_application_type r)) (active_calls w)
             = Some e -> responses e <> None) ->
  snd (handle_call r w) = Ret (outro_lines ++ [Hangup])%list /\
  delivered_at (session_key (req_phone_number r) (req_application_type r))
               (active_calls (fst (handle_call r w)))
  = smem (session_key (req_phone_number r) (req_application_type r)) (active_calls w)
    || Py.truthy (Some (req_previous_response r)).
Proof.
  intros Hstep [Hlo Hhi] Hend Hok.
  assert (Hn0 : (n =? 0) = false) by (apply Z.eqb_neq; lia).
  assert (Hn1 : (n =? 1) = false) by (apply Z.eqb_neq; lia).
  assert (Hlt : (n <? Z.of_nat (length (questions_for (req_application_type r))) + 2) = true)
    by (apply Z.ltb_lt; lia).
  assert (Hsp : ((n - 2 >=? Z.of_nat (length (questions_for (req_application_type r))) - 1)
                 || in_list (values_get "CallStatus" r) terminal_statuses
                 || Py.contains "Hangup" (with_default "" (values_get "Digits" r))
                 || in_list (values_get "DialCallStatus" r) terminal_statuses) = true).
  { destruct Hend as [H|[H|[H|H]]].
    - rewrite (proj2 (Z.geb_le _ _)) by lia. reflexivity.
    - rewrite H. rewrite ?orb_true_r. reflexivity.
    - rewrite H. rewrite ?orb_true_r. reflexivity.
    - rewrite H. rewrite ?orb_true_r. reflexivity. }
  open_question_step Hstep Hn0 Hn1 Hlt.
  destruct (Py.truthy (Some (req_previous_response r))) eqn:Htr; cbv iota.
  - destruct (record_response_run (session_key (req_phone_number r) (req_application_type r))
                (req_customer_name r) (n - 2) (req_previous_response r) w Hok)
      as (e1 & w1 & Hrec & Hg1 & _).
    erewrite try_bind_run by exact Hrec. cbv beta. rewrite Hsp. cbv iota.
    erewrite try_bind_run
      by (unfold mark_delivered, bind, get_store, put_store, ret; cbn; rewrite Hg1; reflexivity).
    cbn. split; [reflexivity|].
    unfold delivered_at. rewrite sget_sset, String.eqb_refl, orb_true_r. reflexivity.
  - erewrite try_bind_run by reflexivity. cbv beta. rewrite Hsp. cbv iota.
    rewrite smem_sget.
    destruct (sget (session_key (req_phone_number r) (req_application_type r)) (active_calls w))
      as [e0|] eqn:Hg.
    + erewrite try_bind_run
        by (unfold mark_delivered, bind, get_store, put_store, ret; cbn; rewrite Hg; reflexivity).
      cbn. split; [reflexivity|].
      unfold delivered_at. rewrite sget_sset, String.eqb_refl. reflexivity.
    + erewrite try_bind_run
        by (unfold mark_delivered, bind, get_store, put_store, ret; cbn; rewrite Hg; reflexivity).
      cbn. split; [reflexivity|].
      unfold delivered_at. rewrite Hg. reflexivity.
Qed.

Lemma handle_call_ending_plays_outro_witness :
  snd (handle_call completed_midway_request one_answer_world)
  = Ret (outro_lines ++ [Hangup])%list /\
  delivered_at (session_key (Some asha_phone) (Some "loan"))
               (active_calls (fst (handle_call completed_midway_request one_answer_world)))
  = smem (session_key (Some asha_phone) (Some "loan")) (active_calls one_answer_world)
    || Py.truthy (Some "").
Proof.
  apply (handle_call_ending_plays_outro completed_midway_request one_answer_world 4).
  - reflexivity.
  - vm_compute. split; [discriminate|reflexivity].
  - right. left. reflexivity.
  - intros e He. vm_compute in He. injection He as <-. discriminate.
Defined.

(** A [step] that is not an integer makes [int()] raise: the document is the
    apology followed by a hangup, and nothing is changed. *)
Theorem handle_call_bad_step_apologises (r : request) (w : world) :
  step_param r = None ->
  handle_call r w = (w, Ret [Say apology_line; Hangup]).
Proof.
  intros Hstep. unfold handle_call, handle_call_body. cbv zeta. rewrite Hstep.
  erewrite try_bind_raise by reflexivity. reflexivity.
Qed.

Lemma handle_call_bad_step_apologises_witness :
  step_param (webhook "loan" "two" asha_phone "yes") = None /\
  handle_call (webhook "loan" "two" asha_phone "yes") one_answer_world
  = (one_answer_world, Ret [Say apology_line; Hangup]).
Proof.
  split; [reflexivity|].
  apply handle_call_bad_step_apologises. reflexivity.
Defined.

(** Steps 0 (the greeting) and 1 (the consent answer) leave the world as it
    is; at step 0 a request without [application_type] gets the apology,
    since [quote(None)] raises. *)
Theorem handle_call_early_steps_keep_world (r : request) (w : world) (n : Z) :
  step_param r = Some n -> n = 0 \/ n = 1 ->
  fst (handle_call r w) = w /\
  (n = 0 -> req_application_type r = None -> snd (handle_call r w) = Ret [Say apology_line; Hangup]).
Proof.
  intros Hstep Hn. unfold handle_call, handle_call_body. cbv zeta. rewrite Hstep.
  erewrite try_bind_run by reflexivity. cbv beta.
  destruct Hn as [->| ->].
  - change (0 =? 0) with true. cbv iota.
    split; [|intros _ ->; reflexivity].
    destruct (req_application_type r); reflexivity.
  - change (1 =? 0) with false. change (1 =? 1) with true. cbv iota.
    split; [|discriminate].
    destruct (is_affirmative _); [|reflexivity].
    destruct (req_application_type r) as [a|]; [|reflexivity].
    unfold questions_for. destruct (opt_eqb (Some a) "loan"); reflexivity.
Qed.

Lemma handle_call_early_steps_keep_world_witness :
  fst (handle_call (webhook "loan" "1" asha_phone "yes, go ahead") one_answer_world)
  = one_answer_world /\
  (1 = 0 -> req_application_type (webhook "loan" "1" asha_phone "yes, go ahead") = None ->
   snd (handle_call (webhook "loan" "1" asha_phone "yes, go ahead") one_answer_world)
   = Ret [Say apology_line; Hangup]).
Proof.
  apply (handle_call_early_steps_keep_world _ _ 1); [reflexivity|right; reflexivity].
Defined.

(** ** Finalization and the call-status route *)

Lemma bind_run {A B} (m : M A) (f : A -> M B) (w w1 : world) (a : A) :
  m w = (w1, Ret a) -> bind m f w = f a w1.
Proof. intros H. unfold bind. rewrite H. reflexivity. Qed.

Lemma bind_raise {A B} (m : M A) (f : A -> M B) (w w1 : world) (e : exn) :
  m w = (w1, Raise e) -> bind m f w = (w1, Raise e).
Proof. intros H. unfold bind. rewrite H. reflexivity. Qed.

Lemma duration_comments_bad (cd : list (string * string)) (w : world) :
  Py.truthy (cd_get "CallDuration" cd) = true ->
  Py.int_of_string (Py.fstr (cd_get "CallDuration" cd)) = None ->
  duration_comments cd w = (w, Raise ValueError).
Proof. intros H1 H2. unfold duration_comments. rewrite H1, H2. reflexivity. Qed.

Lemma process_session_bad_duration llm (P : string) (cd : list (string * string)) (k : string)
    (w : world) :
  Py.truthy (cd_get "CallDuration" cd) = true ->
  Py.int_of_string (Py.fstr (cd_get "CallDuration" cd)) = None ->
  process_session llm P cd k w = (w, Ret tt) \/
  exists c, process_session llm P cd k w = (logged_world w c, Raise ValueError).
Proof.
  intros H1 H2. unfold process_session. cbv zeta.
  rewrite (bind_run _ _ w w (active_calls w)) by reflexivity. cbv beta.
  destruct (delivered_flag _); [left; reflexivity|].
  destruct (responses _) as [rs|]; [|left; reflexivity].
  right. destruct (String.eqb _ "credit_card").
  - eexists. erewrite bind_run by reflexivity.
    erewrite bind_raise by (apply duration_comments_bad; assumption). reflexivity.
  - eexists. erewrite bind_run by reflexivity.
    erewrite bind_raise by (apply duration_comments_bad; assumption). reflexivity.
Qed.

Lemma process_keys_bad_duration llm (P : string) (cd : list (string * string))
    (ks : list string) (w : world) :
  Py.truthy (cd_get "CallDuration" cd) = true ->
  Py.int_of_string (Py.fstr (cd_get "CallDuration" cd)) = None ->
  process_keys llm P cd ks w = (w, Ret tt) \/
  exists c, process_keys llm P cd ks w = (logged_world w c, Raise ValueError).
Proof.
  intros H1 H2. induction ks as [|k ks IH]; simpl; [left; reflexivity|].
  destruct (process_session_bad_duration llm P cd k w H1 H2) as [H|[c H]].
  - rewrite (bind_run _ _ _ _ _ H). exact IH.
  - right. exists c. exact (bind_raise _ _ _ _ _ H).
Qed.

(** A [CallDuration] that is present but not an integer makes [int()] raise
    inside the loop, after the decision service has been called for the
    first pending session: the whole finalization then changes nothing but,
    possibly, that one decision-service call. No record is saved and no
    session is removed, whatever sessions match. *)
Theorem finalization_bad_duration_saves_nothing llm (P : string)
    (cd : list (string * string)) (w : world) :
  Py.truthy (cd_get "CallDuration" cd) = true ->
  Py.int_of_string (Py.fstr (cd_get "CallDuration" cd)) = None ->
  fst (process_incomplete_application llm P cd w) = w \/
  exists c, fst (process_incomplete_application llm P cd w) = logged_world w c.
Proof.
  intros H1 H2. unfold process_incomplete_application.
  erewrite try_bind_run by reflexivity. cbv beta. unfold try_except.
  destruct (process_keys_bad_duration llm P cd (matching_keys P (active_calls w)) w H1 H2)
    as [H|[c H]]; rewrite H; [left|right; exists c]; reflexivity.
Qed.

Lemma finalization_bad_duration_saves_nothing_witness :
  Py.truthy (cd_get "CallDuration" bad_duration_data) = true /\
  Py.int_of_string (Py.fstr (cd_get "CallDuration" bad_duration_data)) = None /\
  (fst (process_incomplete_application llm_maybe asha_phone bad_duration_data one_answer_world)
   = one_answer_world \/
   exists c, fst (process_incomplete_application llm_maybe asha_phone bad_duration_data
                    one_answer_world) = logged_world one_answer_world c).
Proof.
  split; [reflexivity|]. split; [reflexivity|].
  apply finalization_bad_duration_saves_nothing; reflexivity.
Defined.

Lemma process_keys_frame llm (P : string) (cd : list (string * string)) (k : string)
    (ks : list string) :
  ~ In k ks -> steps (fun s s' => sget k s' = sget k s) (process_keys llm P cd ks).
Proof.
  induction ks as [|k' ks IH]; intros Hn; simpl.
  - apply steps_ret. reflexivity.
  - apply steps_bind; [intros s1 s2 s3 Ha Hb; congruence| |intros _].
    + apply steps_process_session.
      all: try (intros ?; reflexivity).
      all: try (intros ? ? ? ? ?; congruence).
      intros s e _ _ _. rewrite sget_sdel. destruct (String.eqb_spec k k') as [->|Hne].
      * exfalso. apply Hn. left. reflexivity.
      * apply sget_sset_other, Hne.
    + apply IH. intros Hin. apply Hn. right. exact Hin.
Qed.

(** Finalization for [phone_number] leaves alone every session whose key
    neither starts with [phone_number] nor equals it. *)
Theorem finalization_only_touches_matching_keys llm (P : string)
    (cd : list (string * string)) (w : world) (k : string) :
  Py.startswith k P = false -> k <> P ->
  sget k (active_calls (fst (process_incomplete_application llm P cd w)))
  = sget k (active_calls w).
Proof.
  intros Hs Hk. unfold process_incomplete_application.
  erewrite try_bind_run by reflexivity. cbv beta.
  refine (steps_try _ _ _ _ (process_keys_frame llm P cd k _ _) _ w).
  - intros s1 s2 s3 Ha Hb. congruence.
  - unfold matching_keys. rewrite filter_In. intros [_ Hf].
    rewrite Hs in Hf. destruct (String.eqb_spec k P); [contradiction|discriminate].
  - intros _. apply steps_ret. reflexivity.
Qed.

Lemma finalization_only_touches_matching_keys_witness :
  Py.startswith "+918888888888_loan" asha_phone = false /\ "+918888888888_loan" <> asha_phone /\
  sget "+918888888888_loan"
    (active_calls (fst (process_incomplete_application llm_maybe asha_phone completed_data
       (mkWorld (("+918888888888_loan", set_responses empty_entry [(0, "29")])
                 :: active_calls one_answer_world) [] [] []))))
  = Some (set_responses empty_entry [(0, "29")]).
Proof.
  split; [reflexivity|]. split; [discriminate|].
  exact (finalization_only_touches_matching_keys llm_maybe asha_phone completed_data
           (mkWorld (("+918888888888_loan", set_responses empty_entry [(0, "29")])
                     :: active_calls one_answer_world) [] [] [])
           "+918888888888_loan" eq_refl ltac:(discriminate)).
Defined.

(** [/call-status] ignores a status outside [completed], [failed], [busy],
    [no-answer] and [canceled], and a terminal status without a [To] number:
    the answer is the empty one and nothing changes. *)
Theorem call_status_ignores_non_final llm (r : request) (w : world) :
  in_list (values_get "CallStatus" r) terminal_statuses = false \/
  Py.truthy (values_get "To" r) = false ->
  call_status llm r w = (w, Ret None).
Proof.
  intros H. unfold call_status.
  destruct H as [H|H]; rewrite H; [reflexivity|].
  destruct (in_list _ _); reflexivity.
Qed.

Lemma call_status_ignores_non_final_witness :
  (in_list (values_get "CallStatus" (status_update "ringing" asha_phone)) terminal_statuses = false \/
   Py.truthy (values_get "To" (status_update "ringing" asha_phone)) = false) /\
  call_status llm_maybe (status_update "ringing" asha_phone) one_answer_world
  = (one_answer_world, Ret None).
Proof.
  split; [left; reflexivity|].
  apply call_status_ignores_non_final. left. reflexivity.
Defined.

(** A terminal status with a [To] number is always answered with the outro
    and a hangup, whatever the decision service and the store: errors of the
    finalization are caught inside it. *)
Theorem call_status_final_plays_outro llm (r : request) (w : world) :
  in_list (values_get "CallStatus" r) terminal_statuses = true ->
  Py.truthy (values_get "To" r) = true ->
  snd (call_status llm r w) = Ret (Some (outro_lines ++ [Hangup])%list).
Proof.
  intros H1 H2. unfold call_status. rewrite H1, H2.
  unfold bind at 1.
  destruct (process_incomplete_application llm (Py.fstr (values_get "To" r)) (values r) w)
    as [w1 [u|e]] eqn:Hp; [reflexivity|].
  exfalso. revert Hp. unfold process_incomplete_application, try_except.
  destruct (bind _ _ w) as [w2 [[]|e2]]; intros Hp; discriminate Hp.
Qed.

Lemma call_status_final_plays_outro_witness :
  in_list (values_get "CallStatus" (status_update "busy" asha_phone)) terminal_statuses = true /\
  Py.truthy (values_get "To" (status_update "busy" asha_phone)) = true /\
  snd (call_status llm_down (status_update "busy" asha_phone) one_answer_world)
  = Ret (Some (outro_lines ++ [Hangup])%list).
Proof.
  split; [reflexivity|]. split; [reflexivity|].
  apply call_status_final_plays_outro; reflexivity.
Defined.

(** ** [/process-application] *)

Lemma format_cleaned_shape (c cn : string) :
  format_cleaned c = Some cn -> Py.startswith cn "+91" = true /\ String.length cn = 13%nat.
Proof.
  unfold format_cleaned. cbv zeta.
  match goal with |- context [if ?b then None else Some ?x] =>
    destruct b eqn:Hb; intros H; [discriminate H|]; injection H as <-
  end.
  apply orb_false_iff in Hb. destruct Hb as [H1 H2].
  apply negb_false_iff in H1. apply negb_false_iff, Nat.eqb_eq in H2. auto.
Qed.

Lemma format_json_phone_shape (v : jvalue) (cn : string) :
  format_json_phone v = Some (Some cn) ->
  Py.startswith cn "+91" = true /\ String.length cn = 13%nat.
Proof.
  unfold format_json_phone. destruct (negb (j_truthy v)); [discriminate|].
  destruct v; try discriminate.
  - intros H. injection H as H. apply format_phone_number_chars in H. tauto.
  - destruct (all_strings l); [|discriminate]. intros H. injection H as H.
    exact (format_cleaned_shape _ _ H).
  - intros H. injection H as H. exact (format_cleaned_shape _ _ H).
Qed.

Lemma j_get_fields (k : string) (fields : list (string * jvalue)) :
  j_get k fields <> JNull -> j_truthy (JObj fields) = true.
Proof. destruct fields; [intros H; exfalso; apply H; reflexivity|reflexivity]. Qed.

(** Every answer of [/process-application] other than a result leaves the
    world as it was: no decision-service call and no file written. *)
Theorem process_application_error_changes_nothing (judge : rubric -> jvalue -> llm_reply)
    (stamp : string) (data : option jvalue) (pw : pa_world) :
  (forall result saved_to, snd (process_application judge stamp data pw)
                           <> PAResult result saved_to) ->
  fst (process_application judge stamp data pw) = pw.
Proof.
  intros H. revert H. unfold process_application. cbv zeta.
  destruct (negb (j_truthy _)); [reflexivity|].
  destruct (match data with Some d => d | None => JNull end) as [| | | |l|fields];
    try reflexivity.
  destruct (j_truthy (j_get "phone_number" fields));
    [destruct (format_json_phone (j_get "phone_number" fields)) as [[cn|]|]|];
    try reflexivity; cbv iota;
    (destruct (negb _); [reflexivity|]);
    (destruct (j_get "application_type" fields) as [| | |a| |]; try reflexivity);
    (destruct (existsb (String.eqb a) ["loan"; "credit_card"]); [|reflexivity]);
    intros H; exfalso; eapply H; reflexivity.
Qed.

Lemma process_application_error_changes_nothing_witness :
  (forall result saved_to,
     snd (process_application judge_yes "20250101_120000"
            (Some (pa_body (JStr "+919876543210") (JStr "cc"))) (mkPAWorld [] []))
     <> PAResult result saved_to) /\
  fst (process_application judge_yes "20250101_120000"
         (Some (pa_body (JStr "+919876543210") (JStr "cc"))) (mkPAWorld [] []))
  = mkPAWorld [] [].
Proof.
  assert (H : forall result saved_to,
     snd (process_application judge_yes "20250101_120000"
            (Some (pa_body (JStr "+919876543210") (JStr "cc"))) (mkPAWorld [] []))
     <> PAResult result saved_to) by (intros result saved_to; vm_compute; discriminate).
  split; [exact H|].
  exact (process_application_error_changes_nothing judge_yes "20250101_120000"
           (Some (pa_body (JStr "+919876543210") (JStr "cc"))) (mkPAWorld [] []) H).
Defined.

(** A result of [/process-application] comes from a JSON object whose
    [application_type] is the string ["loan"] or ["credit_card"] and whose
    [phone_number] formats to a [+91] number of 13 characters. The decision
    service was called once, with the rubric of that type and
    [application_data]; the result is its verdict; one file
    [applications/{stamp}_{phone}.json] was written with the formatted phone
    number and that verdict as its decision. *)
Theorem process_application_success (judge : rubric -> jvalue -> llm_reply) (stamp : string)
    (data : option jvalue) (pw pw' : pa_world) (result saved_to : string) :
  process_application judge stamp data pw = (pw', PAResult result saved_to) ->
  exists fields a rub cn,
    data = Some (JObj fields) /\
    j_get "application_type" fields = JStr a /\
    ((a = "loan" /\ rub = LoanRubric) \/ (a = "credit_card" /\ rub = CardRubric)) /\
    format_json_phone (j_get "phone_number" fields) = Some (Some cn) /\
    Py.startswith cn "+91" = true /\ String.length cn = 13%nat /\
    result = verdict_of_reply (judge rub (j_get "application_data" fields)) /\
    saved_to = ("applications/" ++ stamp ++ "_" ++ cn ++ ".json")%string /\
    pw' = mkPAWorld (pa_decisions pw ++ [(rub, j_get "application_data" fields)])%list
                    (pa_saved pw ++ [mkApplication (j_get "name" fields) cn result a])%list.
Proof.
  unfold process_application. cbv zeta.
  destruct (negb (j_truthy _)); [discriminate|].
  destruct data as [d|]; [|discriminate].
  destruct d as [| | | |l|fields]; try discriminate.
  destruct (j_truthy (j_get "phone_number" fields)) eqn:Ht;
    [destruct (format_json_phone (j_get "phone_number" fields)) as [[cn|]|] eqn:Hf|];
    try discriminate; cbv iota;
    (destruct (negb _) eqn:Hm; [discriminate|]);
    (destruct (j_get "application_type" fields) as [| | |a| |] eqn:Ha; try discriminate);
    (destruct (existsb (String.eqb a) ["loan"; "credit_card"]) eqn:Hin; [|discriminate]).
  - intros H. injection H as <- <- <-.
    destruct (format_json_phone_shape _ _ Hf) as [Hp Hl].
    exists fields, a, (if String.eqb a "loan" then LoanRubric else CardRubric), cn.
    split; [reflexivity|]. split; [exact Ha|].
    split.
    { simpl in Hin. destruct (String.eqb_spec a "loan") as [->|Hne]; [left; auto|].
      destruct (String.eqb_spec a "credit_card") as [->|]; [right; auto|discriminate]. }
    repeat split; first [assumption | reflexivity].
  - exfalso. cbn [Py.truthy] in Hm. rewrite andb_false_r in Hm. simpl in Hm. discriminate Hm.
Qed.

Lemma process_application_success_witness :
  exists fields a rub cn,
    Some (pa_body (JStr "098765 43210") (JStr "credit_card")) = Some (JObj fields) /\
    j_get "application_type" fields = JStr a /\
    ((a = "loan" /\ rub = LoanRubric) \/ (a = "credit_card" /\ rub = CardRubric)) /\
    format_json_phone (j_get "phone_number" fields) = Some (Some cn) /\
    Py.startswith cn "+91" = true /\ String.length cn = 13%nat /\
    "YES" = verdict_of_reply (judge_yes rub (j_get "application_data" fields)) /\
    "applications/20250101_120000_+919876543210.json"
      = ("applications/" ++ "20250101_120000" ++ "_" ++ cn ++ ".json")%string /\
    fst (process_application judge_yes "20250101_120000"
           (Some (pa_body (JStr "098765 43210") (JStr "credit_card"))) (mkPAWorld [] []))
    = mkPAWorld ([] ++ [(rub, j_get "application_data" fields)])%list
                ([] ++ [mkApplication (j_get "name" fields) cn "YES" a])%list.
Proof.
  apply (process_application_success judge_yes "20250101_120000"
           (Some (pa_body (JStr "098765 43210") (JStr "credit_card"))) (mkPAWorld [] [])).
  vm_compute. reflexivity.
Defined.

(** A non-empty string [phone_number] that [format_phone_number] rejects is
    answered [400] ("Invalid phone number format") before any other field
    is looked at, and nothing is written. *)
Theorem process_application_rejects_bad_phone (judge : rubric -> jvalue -> llm_reply)
    (stamp : string) (fields : list (string * jvalue)) (p : string) (pw : pa_world) :
  j_get "phone_number" fields = JStr p -> p <> "" ->
  format_phone_number (Some p) = None ->
  process_application judge stamp (Some (JObj fields)) pw
  = (pw, PAError 400 "Invalid phone number format").
Proof.
  intros Hg Hp Hf. unfold process_application. cbv zeta.
  rewrite (j_get_fields "phone_number" fields) by (rewrite Hg; discriminate). cbv iota.
  assert (Ht : j_truthy (JStr p) = true) by (apply negb_true_iff, String.eqb_neq, Hp).
  rewrite Hg, Ht. unfold format_json_phone. rewrite Ht. cbv iota. rewrite Hf. reflexivity.
Qed.

Lemma process_application_rejects_bad_phone_witness :
  j_get "phone_number" [("phone_number", JStr "12345")] = JStr "12345" /\
  "12345" <> "" /\ format_phone_number (Some "12345") = None /\
  process_application judge_yes "20250101_120000" (Some (JObj [("phone_number", JStr "12345")]))
    (mkPAWorld [] [])
  = (mkPAWorld [] [], PAError 400 "Invalid phone number format").
Proof.
  split; [reflexivity|]. split; [discriminate|]. split; [reflexivity|].
  apply (process_application_rejects_bad_phone _ _ _ "12345"); [reflexivity|discriminate|reflexivity].
Defined.

(** A [phone_number] sent as a non-zero JSON number makes
    [format_phone_number] raise outside the [try] (an [int] is not
    iterable): the route fails with an unhandled error. *)
Theorem process_application_numeric_phone_crashes (judge : rubric -> jvalue -> llm_reply)
    (stamp : string) (fields : list (string * jvalue)) (z : Z) (pw : pa_world) :
  j_get "phone_number" fields = JNum z -> z <> 0 ->
  process_application judge stamp (Some (JObj fields)) pw = (pw, PACrash).
Proof.
  intros Hg Hz. unfold process_application. cbv zeta.
  rewrite (j_get_fields "phone_number" fields) by (rewrite Hg; discriminate). cbv iota.
  assert (Ht : j_truthy (JNum z) = true) by (apply negb_true_iff, Z.eqb_neq, Hz).
  rewrite Hg, Ht. unfold format_json_phone. rewrite Ht. reflexivity.
Qed.

Lemma process_application_numeric_phone_crashes_witness :
  j_get "phone_number" (match pa_body (JNum 9876543210) (JStr "loan") with
                        | JObj f => f | _ => [] end) = JNum 9876543210 /\
  9876543210 <> 0 /\
  process_application judge_yes "20250101_120000" (Some (pa_body (JNum 9876543210) (JStr "loan")))
    (mkPAWorld [] []) = (mkPAWorld [] [], PACrash).
Proof.
  split; [reflexivity|]. split; [discriminate|].
  exact (process_application_numeric_phone_crashes judge_yes "20250101_120000"
           (match pa_body (JNum 9876543210) (JStr "loan") with JObj f => f | _ => [] end)
           9876543210 (mkPAWorld [] []) eq_refl ltac:(discriminate)).
Defined.

(** With every field present and a valid phone number, an
    [application_type] other than the strings ["loan"] and ["credit_card"]
    (["cc"], which [/call] accepts, included) is answered [400] ("Invalid
    application type") and the decision service is not called. *)
Theorem process_application_rejects_other_types (judge : rubric -> jvalue -> llm_reply)
    (stamp : string) (fields : list (string * jvalue)) (p cn : string) (pw : pa_world) :
  j_get "phone_number" fields = JStr p -> format_phone_number (Some p) = Some cn ->
  j_truthy (j_get "name" fields) = true ->
  j_truthy (j_get "application_type" fields) = true ->
  j_truthy (j_get "application_data" fields) = true ->
  j_get "application_type" fields <> JStr "loan" ->
  j_get "application_type" fields <> JStr "credit_card" ->
  process_application judge stamp (Some (JObj fields)) pw
  = (pw, PAError 400 "Invalid application type").
Proof.
  intros Hg Hf Hn Ht Hd Hl Hc.
  assert (Hp : p <> "") by (intros ->; discriminate Hf).
  assert (Htp : j_truthy (JStr p) = true) by (apply negb_true_iff, String.eqb_neq, Hp).
  assert (Hcn : Py.truthy (Some cn) = true).
  { destruct (format_phone_number_chars _ _ Hf) as (_ & _ & Hlen).
    destruct cn; [discriminate Hlen|reflexivity]. }
  unfold process_application. cbv zeta.
  rewrite (j_get_fields "phone_number" fields) by (rewrite Hg; discriminate). cbv iota.
  rewrite Hg, Htp. unfold format_json_phone. rewrite Htp. cbv iota. rewrite Hf. cbv iota.
  cbn [negb]. rewrite Hn, Hcn, Ht, Hd. cbv iota.
  destruct (j_get "application_type" fields) as [| | |a| |]; try reflexivity.
  simpl. destruct (String.eqb_spec a "loan") as [->|]; [contradiction|].
  destruct (String.eqb_spec a "credit_card") as [->|]; [contradiction|reflexivity].
Qed.

Lemma process_application_rejects_other_types_witness :
  process_application judge_yes "20250101_120000"
    (Some (pa_body (JStr "+919876543210") (JStr "cc"))) (mkPAWorld [] [])
  = (mkPAWorld [] [], PAError 400 "Invalid application type").
Proof.
  apply (process_application_rejects_other_types judge_yes "20250101_120000"
           (match pa_body (JStr "+919876543210") (JStr "cc") with JObj f => f | _ => [] end)
           "+919876543210" "+919876543210");
    first [reflexivity | discriminate].
Defined.

(** ** [validate_twilio_request] and [FLASK_ENV] *)

Lemma handle_call_returns (r : request) (w : world) :
  exists w1 d, handle_call r w = (w1, Ret d).
Proof.
  unfold handle_call, try_except.
  destruct (handle_call_body r w) as [w1 [d|e]]; do 2 eexists; reflexivity.
Qed.

Lemma validate_forbidden_run {A} (valid : string -> post_data -> string -> bool)
    (env : option string) (hr : http_request) (f : M A) (w : world) :
  opt_eqb env "testing" = false ->
  valid (twilio_url hr) (twilio_post_data hr) (twilio_signature hr) = false ->
  validate_twilio_request valid env hr f w = (w, Ret Forbidden).
Proof.
  intros He Hv. unfold validate_twilio_request. cbv zeta. rewrite He, Hv. reflexivity.
Qed.

(** Outside testing mode, a request whose signature the validator refuses
    gets the [403] answer and the handler is not run: nothing changes. *)
Theorem validate_refuses_bad_signature {A} (valid : string -> post_data -> string -> bool)
    (env : option string) (hr : http_request) (f : M A) (w : world) :
  opt_eqb env "testing" = false ->
  valid (twilio_url hr) (twilio_post_data hr) (twilio_signature hr) = false ->
  validate_twilio_request valid env hr f w = (w, Ret Forbidden).
Proof. apply validate_forbidden_run. Qed.

Lemma validate_refuses_bad_signature_witness :
  opt_eqb (Some "development") "testing" = false /\
  reject_all (twilio_url greeting_http) (twilio_post_data greeting_http)
             (twilio_signature greeting_http) = false /\
  validate_twilio_request reject_all (Some "development") greeting_http
    (handle_call (request_of greeting_http)) one_answer_world
  = (one_answer_world, Ret Forbidden).
Proof.
  split; [reflexivity|]. split; [reflexivity|].
  apply validate_refuses_bad_signature; reflexivity.
Defined.

(** The testing bypass lasts one Controller callback: with [FLASK_ENV] set
    to ["testing"], the first [/handle-call] whose [step] is an integer runs
    unchecked and sets [FLASK_ENV] to ["development"]; from then on a
    request with a bad signature is refused. *)
Theorem testing_bypass_ends_after_first_callback
    (valid : string -> post_data -> string -> bool) (hr : http_request) (w : world) (n : Z) :
  step_param (request_of hr) = Some n ->
  fst (serve_handle_call valid (Some "testing") hr w) = Some "development" /\
  (forall hr' w',
     valid (twilio_url hr') (twilio_post_data hr') (twilio_signature hr') = false ->
     serve_handle_call valid (fst (serve_handle_call valid (Some "testing") hr w)) hr' w'
     = (Some "development", (w', Ret Forbidden))).
Proof.
  intros Hs.
  assert (H1 : fst (serve_handle_call valid (Some "testing") hr w) = Some "development").
  { unfold serve_handle_call, validate_twilio_request. cbv zeta.
    change (opt_eqb (Some "testing") "testing") with true. cbv iota.
    destruct (handle_call_returns (request_of hr) w) as (w1 & d & Hh).
    rewrite (bind_run _ _ _ _ _ Hh). unfold handle_call_env. rewrite Hs. reflexivity. }
  split; [exact H1|].
  intros hr' w' Hv. rewrite H1.
  unfold serve_handle_call.
  rewrite (validate_forbidden_run valid (Some "development") hr' _ w' eq_refl Hv).
  reflexivity.
Qed.

Lemma testing_bypass_ends_after_first_callback_witness :
  step_param (request_of greeting_http) = Some 0 /\
  fst (serve_handle_call reject_all (Some "testing") greeting_http init_world)
  = Some "development" /\
  (forall hr' w',
     reject_all (twilio_url hr') (twilio_post_data hr') (twilio_signature hr') = false ->
     serve_handle_call reject_all
       (fst (serve_handle_call reject_all (Some "testing") greeting_http init_world)) hr' w'
     = (Some "development", (w', Ret Forbidden))).
Proof.
  split; [reflexivity|].
  apply (testing_bypass_ends_after_first_callback reject_all greeting_http init_world 0).
  reflexivity.
Defined.
